(** * PrismWorlds client: sign-up form, lesson modal, student detail modal

    A shallow embedding of the logic of
    - [src/pages/SignUp.tsx]               (module [SignUp]),
    - [src/components/CreateLessonModal.tsx] (module [CreateLessonModal]),
    - the [StudentDetailModal] component     (module [StudentDetailModal]),
    over a small model of the JavaScript values they use (module [Js]).

    JavaScript strings are sequences of UTF-16 code units; [length], [trim]
    and the (flag-less) regular expressions of the source all work on code
    units, so a string is a [list N] here.  React state is passed
    explicitly: a handler is a function of the state snapshot its closure
    captured and, where the source uses a functional update, of the state
    the update is applied to.  Side effects are recorded as a trace. *)

From Stdlib Require Import ZArith NArith Ascii String List Bool Lia.
From Stdlib Require Import DecimalString Btauto.
From Stdlib Require DecimalPos.
From stdpp Require Import base option list strings gmap fin_maps.

Local Open Scope Z_scope.

(* ===================================================================== *)
(** ** JavaScript values                                                  *)
(* ===================================================================== *)

Module Js.

Definition code_unit := N.
Definition jsstring := list code_unit.

(** A string literal of the source (ASCII only). *)
Definition js (s : string) : jsstring :=
  map N_of_ascii (list_ascii_of_string s).

Definition chr (a : ascii) : code_unit := N_of_ascii a.

(** Truthiness of a string: every string but the empty one. *)
Definition truthy (s : jsstring) : bool :=
  match s with [] => false | _ :: _ => true end.

(** Truthiness of an optional property ([undefined] is falsy). *)
Definition truthy_opt (o : option jsstring) : bool :=
  match o with None => false | Some s => truthy s end.

(** [WhiteSpace] and [LineTerminator] of ECMAScript: the code units that
    [String.prototype.trim] strips and that [\s] matches. *)
Definition is_whitespace (c : code_unit) : bool :=
  ((9 <=? c) && (c <=? 13) (* TAB LF VT FF CR *)
   || (c =? 32) || (c =? 160) || (c =? 5760)
   || (8192 <=? c) && (c <=? 8202)
   || (c =? 8232) || (c =? 8233) || (c =? 8239) || (c =? 8287)
   || (c =? 12288) || (c =? 65279))%N.

Fixpoint trimStart (s : jsstring) : jsstring :=
  match s with
  | c :: s' => if is_whitespace c then trimStart s' else s
  | [] => []
  end.

Definition trimEnd (s : jsstring) : jsstring := rev (trimStart (rev s)).

Definition trim (s : jsstring) : jsstring := trimEnd (trimStart s).

(** *** Regular expressions

    The two patterns of the source are anchored by [^] and [$] and carry
    no flags, so [test] decides membership of the whole string in the
    language of the pattern between the anchors. *)

Inductive ClassItem :=
| CRange (lo hi : code_unit)      (* a-z *)
| CChar (c : code_unit)           (* a single character *)
| CSpace.                         (* \s *)

Inductive Regex :=
| Void
| Eps
| Class (negated : bool) (items : list ClassItem)  (* [...] and [^...] *)
| Chr (c : code_unit)
| Seq (r1 r2 : Regex)
| Alt (r1 r2 : Regex)
| Star (r : Regex).

(** [r+] *)
Definition Plus (r : Regex) : Regex := Seq r (Star r).

Definition item_matches (c : code_unit) (i : ClassItem) : bool :=
  match i with
  | CRange lo hi => ((lo <=? c) && (c <=? hi))%N
  | CChar d => (c =? d)%N
  | CSpace => is_whitespace c
  end.

Definition class_matches (negated : bool) (items : list ClassItem)
    (c : code_unit) : bool :=
  xorb negated (existsb (item_matches c) items).

Fixpoint nullable (r : Regex) : bool :=
  match r with
  | Void => false
  | Eps => true
  | Class _ _ => false
  | Chr _ => false
  | Seq r1 r2 => nullable r1 && nullable r2
  | Alt r1 r2 => nullable r1 || nullable r2
  | Star _ => true
  end.

Fixpoint deriv (c : code_unit) (r : Regex) : Regex :=
  match r with
  | Void => Void
  | Eps => Void
  | Class n items => if class_matches n items c then Eps else Void
  | Chr d => if (c =? d)%N then Eps else Void
  | Seq r1 r2 =>
      if nullable r1 then Alt (Seq (deriv c r1) r2) (deriv c r2)
      else Seq (deriv c r1) r2
  | Alt r1 r2 => Alt (deriv c r1) (deriv c r2)
  | Star r1 => Seq (deriv c r1) (Star r1)
  end.

(** [/^r$/.test(s)] *)
Fixpoint test (r : Regex) (s : jsstring) : bool :=
  match s with
  | [] => nullable r
  | c :: s' => test (deriv c r) s'
  end.

(** The language of a pattern, to state what [test] decides. *)
Inductive lang : Regex -> jsstring -> Prop :=
| lang_eps : lang Eps []
| lang_class n items c :
    class_matches n items c = true -> lang (Class n items) [c]
| lang_chr c : lang (Chr c) [c]
| lang_seq r1 r2 s1 s2 :
    lang r1 s1 -> lang r2 s2 -> lang (Seq r1 r2) (s1 ++ s2)
| lang_alt_l r1 r2 s : lang r1 s -> lang (Alt r1 r2) s
| lang_alt_r r1 r2 s : lang r2 s -> lang (Alt r1 r2) s
| lang_star_nil r : lang (Star r) []
| lang_star_app r s1 s2 :
    lang r s1 -> lang (Star r) s2 -> lang (Star r) (s1 ++ s2).

(** *** Numbers

    A JavaScript number that holds an integer is a [Z]; [None] stands
    for [NaN].  The source only compares such numbers with the small
    constants 15 and 180 and tests them for truthiness, which rounding
    to the nearest double does not change. *)

Definition digit_value (radix : Z) (c : code_unit) : option Z :=
  let c := Z.of_N c in
  let v :=
    if (48 <=? c) && (c <=? 57) then Some (c - 48)          (* 0-9 *)
    else if (97 <=? c) && (c <=? 122) then Some (c - 87)    (* a-z *)
    else if (65 <=? c) && (c <=? 90) then Some (c - 55)     (* A-Z *)
    else None in
  match v with
  | Some d => if d <? radix then Some d else None
  | None => None
  end.

(** The value of the longest prefix of radix digits; [acc] is [None]
    until a first digit has been read. *)
Fixpoint parse_digits (radix : Z) (acc : option Z) (s : jsstring)
    : option Z :=
  match s with
  | [] => acc
  | c :: s' =>
      match digit_value radix c with
      | Some d => parse_digits radix (Some (default 0 acc * radix + d)) s'
      | None => acc
      end
  end.

(** [Number.isSafeInteger]: the numbers of the source are doubles, and the
    integers of this range are the ones that [Z] models exactly -- each
    is a double of its own, prints all its digits and is read back by
    [parseInt] without rounding. *)
Definition MAX_SAFE_INTEGER : Z := 2 ^ 53 - 1.

Definition isSafeInteger (n : Z) : bool :=
  (- MAX_SAFE_INTEGER <=? n) && (n <=? MAX_SAFE_INTEGER).


(** [parseInt(s)] with no radix argument.  The result is the integer the
    digits denote; JavaScript rounds it to a double, which is the same
    number when it is a safe integer. *)
Definition parseInt (s : jsstring) : option Z :=
  let s := trimStart s in
  let '(sign, s) :=
    match s with
    | c :: s' =>
        if (c =? chr "-")%N then (-1, s')
        else if (c =? chr "+")%N then (1, s')
        else (1, s)
    | [] => (1, s)
    end in
  let '(radix, s) :=
    match s with
    | c0 :: cx :: s' =>
        if ((c0 =? chr "0") && ((cx =? chr "x") || (cx =? chr "X")))%N
        then (16, s') else (10, s)
    | _ => (10, s)
    end in
  (fun n => sign * n) <$> parse_digits radix None s.

(** [n || 0] for a number [n]: [NaN] and [0] are falsy. *)
Definition or_zero (n : option Z) : Z := default 0 n.

(** [n.toString()] for an integer [n]: its decimal numeral.  This is
    what JavaScript prints for the safe integers (from 1e21 on it prints
    an exponent). *)
Definition Number_toString (n : Z) : jsstring :=
  js (NilZero.string_of_int (Z.to_int n)).

(** *** Locale formatting

    [n.toLocaleString()] formats in the locale of the browser.  For an
    integer the locale decides the separator of the digit groups, the
    size of the groups after the first group of three (3, or 2 as in
    en-IN), the least number of digits before the first separator (1, or
    2 as in es-ES, which prints 1250 without separator) and the minus
    sign.  The digits are the Latin ones, as in the locales whose default
    numbering system is latn. *)
Record Locale := mkLocale {
  group_separator : jsstring;
  secondary_grouping : nat;
  minimum_grouping_digits : nat;
  minus_sign : jsstring
}.

(** The digits from the ones place on ([i] is the place of the first),
    the separator put in front of the places 3, 3 + [size],
    3 + 2 * [size], ...; everything is reversed. *)
Fixpoint group_from (separator : jsstring) (size : nat) (i : nat)
    (digits : jsstring) : jsstring :=
  match digits with
  | [] => []
  | d :: digits' =>
      (if (3 <=? i)%nat && ((i - 3) mod size =? 0)%nat then separator
       else [])
      ++ d :: group_from separator size (S i) digits'
  end.

Definition Number_toLocaleString (locale : Locale) (n : Z) : jsstring :=
  let digits := Number_toString (Z.abs n) in
  (if n <? 0 then minus_sign locale else [])
  ++ (if (minimum_grouping_digits locale + 3 <=? length digits)%nat then
        rev (group_from (rev (group_separator locale))
               (secondary_grouping locale) 0 (rev digits))
      else digits).


(** *** Arrays of strings *)

Fixpoint filter_from {A} (p : A -> nat -> bool) (i : nat) (a : list A)
    : list A :=
  match a with
  | [] => []
  | x :: a' =>
      if p x i then x :: filter_from p (S i) a' else filter_from p (S i) a'
  end.

(** [a.filter((x, i) => p(x, i))] *)
Definition Array_filter {A} (p : A -> nat -> bool) (a : list A) : list A :=
  filter_from p 0 a.

(** [a[index] = value] on a dense array: inside the array the element is
    replaced, at [a.length] the array grows by one; further out the
    assignment would leave holes, which an array of strings cannot hold
    ([None]). *)
Definition Array_assign {A} (a : list A) (index : nat) (value : A)
    : option (list A) :=
  if (index <? length a)%nat then Some (<[index := value]> a)
  else if (index =? length a)%nat then Some (a ++ [value])
  else None.

End Js.

(* ===================================================================== *)
(** ** Objects, effects and component state                               *)
(* ===================================================================== *)

Module React.
Import Js.

(** An error object: a property may be absent, or present and set to
    [undefined] ([Some None]) or to a message. *)
Abbreviation FormErrors := (gmap string (option jsstring)).

Definition Object_keys {V} (o : gmap string V) : list string :=
  (map_to_list o).*1.

(** [Object.keys(o).length === 0] *)
Definition no_keys {V} (o : gmap string V) : bool :=
  (length (Object_keys o) =? 0)%nat.

(** [errors[name]] used as a condition. *)
Definition has_error (errors : FormErrors) (name : string) : bool :=
  match errors !! name with
  | Some v => truthy_opt v
  | None => false
  end.

(** [{errors.k && <p>{errors.k}</p>}]: the message rendered for [k]. *)
Definition message_at (errors : FormErrors) (k : string)
    : option jsstring :=
  match errors !! k with
  | Some (Some m) => if truthy m then Some m else None
  | _ => None
  end.

(** What is rendered for a value assigned to [errors.k]. *)
Definition shown (v : option jsstring) : option jsstring :=
  match v with
  | Some m => if truthy m then Some m else None
  | None => None
  end.

(** An object literal with its properties in order; a property can hold
    [undefined]. *)
Definition JsObject := list (string * option jsstring).

(** [JSON.stringify] of such an object, represented by the members of
    the JSON text in order: properties that hold [undefined] are
    omitted. *)
Definition JSON_stringify (o : JsObject) : list (string * jsstring) :=
  omap (fun kv => match kv.2 with
                  | Some v => Some (kv.1, v)
                  | None => None
                  end) o.

(** The value of member [k] of a JSON text, if it has one. *)
Definition JSON_get (k : string) (o : list (string * jsstring))
    : option jsstring :=
  snd <$> List.find (fun kv => bool_decide (kv.1 = k)) o.

(** [...(c && { k: v })] inside an object literal: a falsy [c] spreads
    nothing. *)
Definition spread_if (c : bool) (k : string) (v : option jsstring)
    : JsObject :=
  if c then [(k, v)] else [].

Inductive TimerCallback :=
| Navigate (path : jsstring).

(** What a handler does, in program order.  [Form] is the type of the
    component's form data. *)
Inductive Effect (Form : Type) :=
| PreventDefault
| SetErrors (e : FormErrors)
| SetFormData (f : Form)
| SetIsSubmitting (b : bool)
| SetIsSuccess (b : bool)
| Await (ms : Z)
| ConsoleLog (msg : jsstring)
| ConsoleError (msg : jsstring)
| LocalStorageSetItem (key : jsstring) (value : list (string * jsstring))
| SetTimeout (callback : TimerCallback) (ms : Z)
| OnSave (lessonData : Form)
| OnClose.

Arguments PreventDefault {Form}.
Arguments SetErrors {Form} e.
Arguments SetFormData {Form} f.
Arguments SetIsSubmitting {Form} b.
Arguments SetIsSuccess {Form} b.
Arguments Await {Form} ms.
Arguments ConsoleLog {Form} msg.
Arguments ConsoleError {Form} msg.
Arguments LocalStorageSetItem {Form} key value.
Arguments SetTimeout {Form} callback ms.
Arguments OnSave {Form} lessonData.
Arguments OnClose {Form}.

(** How a block of statements ends. *)
Inductive Completion := Normal | Throw.

(** A run of a block: its trace and how it ended. *)
Definition Run (Form : Type) : Type := list (Effect Form) * Completion.

Section Blocks.
Context {Form : Type}.

Definition skip : Run Form := ([], Normal).

Definition emit (e : Effect Form) : Run Form := ([e], Normal).

(** A call to a function of the environment, which may throw after
    it has been entered. *)
Definition call (e : Effect Form) (throws : bool) : Run Form :=
  ([e], if throws then Throw else Normal).

Definition throw : Run Form := ([], Throw).

Definition seq (a b : Run Form) : Run Form :=
  match a with
  | (t, Normal) => (t ++ b.1, b.2)
  | (t, Throw) => (t, Throw)
  end.

(** Statements in sequence. *)
Definition block (l : list (Run Form)) : Run Form := foldr seq skip l.

(** [try { body } catch { handler } finally { fin }] *)
Definition try_catch_finally (body handler fin : Run Form) : Run Form :=
  match body with
  | (t, Normal) => seq (t, Normal) fin
  | (t, Throw) => seq (t, Normal) (seq handler fin)
  end.

(** The state hooks of a form component. *)
Record State := mkState {
  formData : Form;
  errors : FormErrors;
  isSubmitting : bool;
  isSuccess : bool
}.

Definition apply_effect (s : State) (e : Effect Form) : State :=
  match e with
  | SetErrors x =>
      mkState (formData s) x (isSubmitting s) (isSuccess s)
  | SetFormData f =>
      mkState f (errors s) (isSubmitting s) (isSuccess s)
  | SetIsSubmitting b =>
      mkState (formData s) (errors s) b (isSuccess s)
  | SetIsSuccess b =>
      mkState (formData s) (errors s) (isSubmitting s) b
  | _ => s
  end.

(** The states a trace goes through, the last one last. *)
Fixpoint states_of (s : State) (t : list (Effect Form)) : list State :=
  match t with
  | [] => []
  | e :: t' => let s' := apply_effect s e in s' :: states_of s' t'
  end.

Definition run_trace (s : State) (t : list (Effect Form)) : State :=
  fold_left apply_effect t s.

Definition is_storage_write (e : Effect Form) : bool :=
  match e with LocalStorageSetItem _ _ => true | _ => false end.

Definition is_navigation (e : Effect Form) : bool :=
  match e with SetTimeout (Navigate _) _ => true | _ => false end.

Definition is_onSave (e : Effect Form) : bool :=
  match e with OnSave _ => true | _ => false end.

Definition is_delay (e : Effect Form) : bool :=
  match e with Await _ => true | _ => false end.

Definition is_setIsSubmitting (e : Effect Form) : bool :=
  match e with SetIsSubmitting _ => true | _ => false end.

Definition is_setIsSuccess (e : Effect Form) : bool :=
  match e with SetIsSuccess _ => true | _ => false end.

End Blocks.

Arguments State Form : clear implicits.

End React.

(* ===================================================================== *)
(** ** src/pages/SignUp.tsx                                               *)
(* ===================================================================== *)

Module SignUp.
Import Js React.

Inductive Role := student | teacher.

#[global] Instance Role_eq_dec : EqDecision Role.
Proof. solve_decision. Defined.

Definition Role_string (r : Role) : jsstring :=
  match r with student => js "student" | teacher => js "teacher" end.

Record FormData := mkFormData {
  name : jsstring;
  email : jsstring;
  password : jsstring;
  confirmPassword : jsstring;
  role : Role;
  grade : option jsstring;
  school : option jsstring;
  state : option jsstring
}.

(** [useState<FormData>({ name: '', ..., role: 'student' })] *)
Definition initialFormData : FormData :=
  mkFormData [] [] [] [] student None None None.

(** [/^[a-zA-Z\s.,'-]+$/] *)
Definition textOnlyRegex : Regex :=
  Plus (Class false [CRange (chr "a") (chr "z"); CRange (chr "A") (chr "Z");
                     CSpace; CChar (chr "."); CChar (chr ",");
                     CChar (chr "'"); CChar (chr "-")]).

(** [/^[^\s@]+@[^\s@]+\.[^\s@]+$/] *)
Definition emailRegex : Regex :=
  let part := Plus (Class true [CSpace; CChar (chr "@")]) in
  Seq part (Seq (Chr (chr "@")) (Seq part (Seq (Chr (chr ".")) part))).

Definition validateTextOnly (value fieldName : jsstring)
    : option jsstring :=
  if truthy value && negb (test textOnlyRegex value) then
    Some (fieldName
            ++ js " can only contain letters, spaces, and basic punctuation")
  else None.

(** The first component is the object handed to [setErrors], the second
    the value returned. *)
Definition validateForm (formData : FormData) : FormErrors * bool :=
  let newErrors : FormErrors := ∅ in
  (* Name validation *)
  let newErrors :=
    if negb (truthy (trim (name formData))) then
      <["name" := Some (js "Name is required")]> newErrors
    else
      let textError := validateTextOnly (name formData) (js "Name") in
      if truthy_opt textError then <["name" := textError]> newErrors
      else newErrors in
  (* Email validation *)
  let newErrors :=
    if negb (truthy (trim (email formData))) then
      <["email" := Some (js "Email is required")]> newErrors
    else if negb (test emailRegex (email formData)) then
      <["email" := Some (js "Please enter a valid email address")]> newErrors
    else newErrors in
  (* Password validation *)
  let newErrors :=
    if negb (truthy (password formData)) then
      <["password" := Some (js "Password is required")]> newErrors
    else if (length (password formData) <? 6)%nat then
      <["password" :=
          Some (js "Password must be at least 6 characters long")]> newErrors
    else newErrors in
  (* Confirm password validation *)
  let newErrors :=
    if negb (truthy (confirmPassword formData)) then
      <["confirmPassword" :=
          Some (js "Please confirm your password")]> newErrors
    else if negb (bool_decide (password formData = confirmPassword formData))
    then
      <["confirmPassword" := Some (js "Passwords do not match")]> newErrors
    else newErrors in
  (* Role-specific validations *)
  let newErrors :=
    if bool_decide (role formData = student) then
      if negb (truthy_opt (grade formData)) then
        <["grade" := Some (js "Grade is required for students")]> newErrors
      else newErrors
    else newErrors in
  (* School validation (text only) *)
  let newErrors :=
    match school formData with
    | Some s =>
        if truthy s then
          let textError := validateTextOnly s (js "School name") in
          if truthy_opt textError then <["school" := textError]> newErrors
          else newErrors
        else newErrors
    | None => newErrors
    end in
  (newErrors, no_keys newErrors).

(** The environment of one submission. *)
Record Env := mkEnv {
  Date_now_toString : jsstring;        (* Date.now().toString() *)
  Date_toISOString : jsstring;         (* new Date().toISOString() *)
  setItem_throws : bool                (* localStorage.setItem fails *)
}.

Definition userData (env : Env) (formData : FormData) : JsObject :=
  [("id", Some (Date_now_toString env));
   ("name", Some (name formData));
   ("email", Some (email formData));
   ("role", Some (Role_string (role formData)))]
  ++ spread_if (bool_decide (role formData = student))
       "grade" (grade formData)
  ++ spread_if (truthy_opt (school formData)) "school" (school formData)
  ++ spread_if (truthy_opt (state formData)) "state" (state formData)
  ++ [("joinDate", Some (Date_toISOString env))].

Definition redirect (formData : FormData) : jsstring :=
  match role formData with
  | student => js "/dashboard"
  | teacher => js "/teacher"
  end.

(** [localStorage.setItem(key, value)]: a call that throws writes
    nothing. *)
Definition localStorage_setItem (env : Env) (key : jsstring)
    (value : list (string * jsstring)) : Run FormData :=
  if setItem_throws env then throw
  else emit (LocalStorageSetItem key value).

Definition handleSubmit (env : Env) (formData : FormData) : Run FormData :=
  seq (emit PreventDefault)
  (let '(newErrors, valid) := validateForm formData in
   seq (emit (SetErrors newErrors))
   (if negb valid then skip
    else block [
      emit (SetIsSubmitting true);
      emit (SetErrors ∅);
      try_catch_finally
        (block [
           (* Simulate API call *)
           emit (Await 2000);
           emit (ConsoleLog (js "Registration successful:"));
           localStorage_setItem env (js "currentUser")
             (JSON_stringify (userData env formData));
           emit (SetIsSuccess true);
           (* Redirect based on role after showing success message *)
           emit (SetTimeout (Navigate (redirect formData)) 2000) ])
        (block [
           emit (ConsoleError (js "Registration error:"));
           emit (SetErrors
                   {["general" :=
                       Some (js "Registration failed. Please try again.")]}) ])
        (emit (SetIsSubmitting false)) ])).

(** The trace of a valid submission whose storage write succeeds, and of
    one whose storage write throws. *)
Definition success_trace (env : Env) (formData : FormData)
    : list (Effect FormData) :=
  [PreventDefault; SetErrors ∅; SetIsSubmitting true; SetErrors ∅;
   Await 2000; ConsoleLog (js "Registration successful:");
   LocalStorageSetItem (js "currentUser")
     (JSON_stringify (userData env formData));
   SetIsSuccess true;
   SetTimeout (Navigate (redirect formData)) 2000;
   SetIsSubmitting false].

Definition failure_trace : list (Effect FormData) :=
  [PreventDefault; SetErrors ∅; SetIsSubmitting true; SetErrors ∅;
   Await 2000; ConsoleLog (js "Registration successful:");
   ConsoleError (js "Registration error:");
   SetErrors {["general" :=
                 Some (js "Registration failed. Please try again.")]};
   SetIsSubmitting false].

(** *** The field-level checks, in the words of the specification

    A field is present when it holds a non-empty string. *)

Definition present (o : option jsstring) : bool := truthy_opt o.

Definition name_check (formData : FormData) : bool :=
  truthy (trim (name formData)) && test textOnlyRegex (name formData).

(** The email as it was entered is matched. *)
Definition email_check (formData : FormData) : bool :=
  truthy (trim (email formData)) && test emailRegex (email formData).

(** The trimmed email is matched. *)
Definition trimmed_email_check (formData : FormData) : bool :=
  truthy (trim (email formData))
  && test emailRegex (trim (email formData)).

Definition password_check (formData : FormData) : bool :=
  truthy (password formData) && (6 <=? length (password formData))%nat.

Definition confirmPassword_check (formData : FormData) : bool :=
  truthy (confirmPassword formData)
  && bool_decide (confirmPassword formData = password formData).

Definition grade_check (formData : FormData) : bool :=
  match role formData with
  | student => present (grade formData)
  | teacher => true
  end.

Definition school_check (formData : FormData) : bool :=
  if present (school formData)
  then test textOnlyRegex (default [] (school formData))
  else true.

(** The fields that [validateForm] can attach a message to. *)
Definition field_keys : list string :=
  ["name"; "email"; "password"; "confirmPassword"; "grade"; "school"].

(** The phases of the submission flow, read off the state hooks. *)
Inductive Phase := Idle | Submitting | Success | Failed.

#[global] Instance Phase_eq_dec : EqDecision Phase.
Proof. solve_decision. Defined.

Definition phase (s : React.State FormData) : Phase :=
  if isSubmitting s then Submitting
  else if isSuccess s then Success
  else if has_error (errors s) "general" then Failed
  else Idle.

(** A run of phases without its repetitions. *)
Fixpoint path (p : Phase) (l : list Phase) : list Phase :=
  match l with
  | [] => [p]
  | q :: l' => if bool_decide (p = q) then path q l' else p :: path q l'
  end.

(** *** The change handlers *)

(** The [name] attributes of the controls whose [onChange] is
    [handleChange]. *)
Inductive FieldName :=
| field_name | field_email | field_password | field_confirmPassword
| field_grade | field_school | field_state.

Definition FieldName_string (n : FieldName) : string :=
  match n with
  | field_name => "name"
  | field_email => "email"
  | field_password => "password"
  | field_confirmPassword => "confirmPassword"
  | field_grade => "grade"
  | field_school => "school"
  | field_state => "state"
  end.

(** [{ ...prev, [name]: value }] *)
Definition set_field (n : FieldName) (value : jsstring) (prev : FormData)
    : FormData :=
  match n with
  | field_name =>
      mkFormData value (email prev) (password prev) (confirmPassword prev)
        (role prev) (grade prev) (school prev) (state prev)
  | field_email =>
      mkFormData (name prev) value (password prev) (confirmPassword prev)
        (role prev) (grade prev) (school prev) (state prev)
  | field_password =>
      mkFormData (name prev) (email prev) value (confirmPassword prev)
        (role prev) (grade prev) (school prev) (state prev)
  | field_confirmPassword =>
      mkFormData (name prev) (email prev) (password prev) value
        (role prev) (grade prev) (school prev) (state prev)
  | field_grade =>
      mkFormData (name prev) (email prev) (password prev)
        (confirmPassword prev) (role prev) (Some value) (school prev)
        (state prev)
  | field_school =>
      mkFormData (name prev) (email prev) (password prev)
        (confirmPassword prev) (role prev) (grade prev) (Some value)
        (state prev)
  | field_state =>
      mkFormData (name prev) (email prev) (password prev)
        (confirmPassword prev) (role prev) (grade prev) (school prev)
        (Some value)
  end.

(** [setFormData(prev => f(prev))] and [setErrors(prev => f(prev))] *)
Definition update_formData (f : FormData -> FormData)
    (s : React.State FormData) : React.State FormData :=
  mkState (f (formData s)) (errors s) (isSubmitting s) (isSuccess s).

Definition update_errors (f : FormErrors -> FormErrors)
    (s : React.State FormData) : React.State FormData :=
  mkState (formData s) (f (errors s)) (isSubmitting s) (isSuccess s).

(** [handleChange] of the state its closure captured ([snapshot], the
    [errors] of the source) applied to the current state ([prev]). *)
Definition handleChange (snapshot : React.State FormData) (n : FieldName)
    (value : jsstring) (prev : React.State FormData)
    : React.State FormData :=
  let name := FieldName_string n in
  (* Real-time validation for text fields *)
  let prev :=
    match n with
    | field_name | field_school =>
        let textError :=
          validateTextOnly value
            (match n with field_name => js "Name" | _ => js "School name"
             end) in
        if truthy_opt textError then
          update_errors (fun e => <[name := textError]> e) prev
        else
          update_errors (fun e => <[name := None]> e) prev
    | _ => prev
    end in
  let prev := update_formData (set_field n value) prev in
  (* Clear error when user starts typing *)
  if has_error (errors snapshot) name then
    update_errors (fun e => <[name := None]> e) prev
  else prev.

(** The two role buttons: [setFormData(prev => ({ ...prev, role }))]. *)
Definition selectRole (r : Role) (prev : React.State FormData)
    : React.State FormData :=
  update_formData
    (fun p => mkFormData (name p) (email p) (password p) (confirmPassword p)
                r (grade p) (school p) (state p)) prev.

(** The pattern message of [validateTextOnly]. *)
Definition pattern_message (fieldName : jsstring) : jsstring :=
  fieldName ++ js " can only contain letters, spaces, and basic punctuation".

(** A code unit of the class [[a-zA-Z\s.,'-]]. *)
Definition text_char (c : code_unit) : bool :=
  ((97 <=? c) && (c <=? 122) || (65 <=? c) && (c <=? 90)
   || is_whitespace c || (c =? 46) || (c =? 44) || (c =? 39)
   || (c =? 45))%N.

(** A code unit of the class [[^\s@]]. *)
Definition email_char (c : code_unit) : bool :=
  negb (is_whitespace c) && negb (c =? 64)%N.

End SignUp.

(* ===================================================================== *)
(** ** src/components/CreateLessonModal.tsx                               *)
(* ===================================================================== *)

Module CreateLessonModal.
Import Js React.

Record LessonFormData := mkLesson {
  title : jsstring;
  subject : jsstring;
  description : jsstring;
  duration : Z;
  objectives : list jsstring;
  difficulty : jsstring;       (* the value of the difficulty select *)
  category : jsstring;
  prerequisites : jsstring;
  materials : list jsstring
}.

(** The object of [useState<LessonFormData>], of the reset in
    [handleSubmit] and of [handleClose]. *)
Definition initialFormData : LessonFormData :=
  mkLesson [] [] [] 30 [[]] (js "Beginner") [] [] [[]].

Definition with_objectives (l : list jsstring) (f : LessonFormData) :=
  mkLesson (title f) (subject f) (description f) (duration f) l
           (difficulty f) (category f) (prerequisites f) (materials f).

Definition with_materials (l : list jsstring) (f : LessonFormData) :=
  mkLesson (title f) (subject f) (description f) (duration f)
           (objectives f) (difficulty f) (category f) (prerequisites f) l.

(** [/^[a-zA-Z\s.,'-]+$/] *)
Definition textOnlyRegex : Regex :=
  Plus (Class false [CRange (chr "a") (chr "z"); CRange (chr "A") (chr "Z");
                     CSpace; CChar (chr "."); CChar (chr ",");
                     CChar (chr "'"); CChar (chr "-")]).

Definition validateTextOnly (value fieldName : jsstring)
    : option jsstring :=
  if truthy value && negb (test textOnlyRegex value) then
    Some (fieldName
            ++ js " can only contain letters, spaces, and basic punctuation")
  else None.

(** The first component is the object handed to [setErrors], the second
    the value returned. *)
Definition validateForm (formData : LessonFormData) : FormErrors * bool :=
  let newErrors : FormErrors := ∅ in
  (* Title validation *)
  let newErrors :=
    if negb (truthy (trim (title formData))) then
      <["title" := Some (js "Lesson title is required")]> newErrors
    else
      let textError := validateTextOnly (title formData) (js "Title") in
      if truthy_opt textError then <["title" := textError]> newErrors
      else newErrors in
  (* Subject validation *)
  let newErrors :=
    if negb (truthy (trim (subject formData))) then
      <["subject" := Some (js "Subject is required")]> newErrors
    else newErrors in
  (* Description validation *)
  let newErrors :=
    if negb (truthy (trim (description formData))) then
      <["description" := Some (js "Description is required")]> newErrors
    else if (length (description formData) <? 20)%nat then
      <["description" :=
          Some (js "Description must be at least 20 characters long")]>
        newErrors
    else newErrors in
  (* Duration validation *)
  let newErrors :=
    if (duration formData <? 15) || (duration formData >? 180) then
      <["duration" :=
          Some (js "Duration must be between 15 and 180 minutes")]> newErrors
    else newErrors in
  (* Objectives validation *)
  let validObjectives :=
    Array_filter (fun obj _ => truthy (trim obj)) (objectives formData) in
  let newErrors :=
    if (length validObjectives =? 0)%nat then
      <["objectives" :=
          Some (js "At least one learning objective is required")]> newErrors
    else newErrors in
  (* Category validation *)
  let newErrors :=
    if negb (truthy (trim (category formData))) then
      <["category" := Some (js "Category is required")]> newErrors
    else newErrors in
  (newErrors, no_keys newErrors).

(** The [name] attributes of the controls whose [onChange] is
    [handleChange]. *)
Inductive FieldName :=
| name_title | name_subject | name_description | name_duration
| name_difficulty | name_category | name_prerequisites.

Definition FieldName_string (n : FieldName) : string :=
  match n with
  | name_title => "title"
  | name_subject => "subject"
  | name_description => "description"
  | name_duration => "duration"
  | name_difficulty => "difficulty"
  | name_category => "category"
  | name_prerequisites => "prerequisites"
  end.

(** [{ ...prev, [name]: name === 'duration' ? parseInt(value) || 0 : value }] *)
Definition set_field (n : FieldName) (value : jsstring)
    (prev : LessonFormData) : LessonFormData :=
  match n with
  | name_title =>
      mkLesson value (subject prev) (description prev) (duration prev)
        (objectives prev) (difficulty prev) (category prev)
        (prerequisites prev) (materials prev)
  | name_subject =>
      mkLesson (title prev) value (description prev) (duration prev)
        (objectives prev) (difficulty prev) (category prev)
        (prerequisites prev) (materials prev)
  | name_description =>
      mkLesson (title prev) (subject prev) value (duration prev)
        (objectives prev) (difficulty prev) (category prev)
        (prerequisites prev) (materials prev)
  | name_duration =>
      mkLesson (title prev) (subject prev) (description prev)
        (or_zero (parseInt value))
        (objectives prev) (difficulty prev) (category prev)
        (prerequisites prev) (materials prev)
  | name_difficulty =>
      mkLesson (title prev) (subject prev) (description prev) (duration prev)
        (objectives prev) value (category prev)
        (prerequisites prev) (materials prev)
  | name_category =>
      mkLesson (title prev) (subject prev) (description prev) (duration prev)
        (objectives prev) (difficulty prev) value
        (prerequisites prev) (materials prev)
  | name_prerequisites =>
      mkLesson (title prev) (subject prev) (description prev) (duration prev)
        (objectives prev) (difficulty prev) (category prev)
        value (materials prev)
  end.

(** The state hooks of the modal; it has no [isSuccess] hook, which
    stays [false] here. *)
Abbreviation State := (React.State LessonFormData).

(** [setFormData(prev => f(prev))] and [setErrors(prev => f(prev))] *)
Definition update_formData (f : LessonFormData -> LessonFormData)
    (s : State) : State :=
  mkState (f (formData s)) (errors s) (isSubmitting s) (isSuccess s).

Definition update_errors (f : FormErrors -> FormErrors) (s : State)
    : State :=
  mkState (formData s) (f (errors s)) (isSubmitting s) (isSuccess s).

(** The handlers below take the state their closure captured at render
    time ([snapshot]: the [formData] and [errors] of the source) and the
    state their functional updates are applied to ([prev]). *)

Definition handleChange (snapshot : State) (n : FieldName)
    (value : jsstring) (prev : State) : State :=
  let name := FieldName_string n in
  (* Real-time validation for text fields *)
  let prev :=
    match n with
    | name_title =>
        let textError := validateTextOnly value (js "Title") in
        if truthy_opt textError then
          update_errors (fun e => <[name := textError]> e) prev
        else
          update_errors (fun e => <[name := None]> e) prev
    | _ => prev
    end in
  let prev := update_formData (set_field n value) prev in
  (* Clear error when user starts typing *)
  if has_error (errors snapshot) name then
    update_errors (fun e => <[name := None]> e) prev
  else prev.

Definition handleObjectiveChange (snapshot : State) (index : nat)
    (value : jsstring) (prev : State) : option State :=
  newObjectives ← Array_assign (objectives (formData snapshot)) index value;
  let prev := update_formData (with_objectives newObjectives) prev in
  (* Clear objectives error if user is typing *)
  Some (if has_error (errors snapshot) "objectives" then
          update_errors (fun e => <["objectives" := None]> e) prev
        else prev).

Definition addObjective (prev : State) : State :=
  update_formData (fun p => with_objectives (objectives p ++ [[]]) p) prev.

Definition removeObjective (snapshot : State) (index : nat) (prev : State)
    : State :=
  if (1 <? length (objectives (formData snapshot)))%nat then
    let newObjectives :=
      Array_filter (fun _ i => negb (i =? index)%nat)
        (objectives (formData snapshot)) in
    update_formData (with_objectives newObjectives) prev
  else prev.

Definition handleMaterialChange (snapshot : State) (index : nat)
    (value : jsstring) (prev : State) : option State :=
  newMaterials ← Array_assign (materials (formData snapshot)) index value;
  Some (update_formData (with_materials newMaterials) prev).

Definition addMaterial (prev : State) : State :=
  update_formData (fun p => with_materials (materials p ++ [[]]) p) prev.

Definition removeMaterial (snapshot : State) (index : nat) (prev : State)
    : State :=
  if (1 <? length (materials (formData snapshot)))%nat then
    let newMaterials :=
      Array_filter (fun _ i => negb (i =? index)%nat)
        (materials (formData snapshot)) in
    update_formData (with_materials newMaterials) prev
  else prev.

(** The callbacks the parent passes in. *)
Record Env := mkEnv {
  onSave_throws : LessonFormData -> bool;
  onClose_throws : bool
}.

Definition cleanedData (formData : LessonFormData) : LessonFormData :=
  with_materials
    (Array_filter (fun mat _ => truthy (trim mat)) (materials formData))
    (with_objectives
       (Array_filter (fun obj _ => truthy (trim obj)) (objectives formData))
       formData).

Definition handleSubmit (env : Env) (formData : LessonFormData)
    : Run LessonFormData :=
  seq (emit PreventDefault)
  (let '(newErrors, valid) := validateForm formData in
   seq (emit (SetErrors newErrors))
   (if negb valid then skip
    else block [
      emit (SetIsSubmitting true);
      try_catch_finally
        (block [
           (* Simulate API call *)
           emit (Await 1500);
           (* Clean up data before saving *)
           call (OnSave (cleanedData formData))
                (onSave_throws env (cleanedData formData));
           (* Reset form *)
           emit (SetFormData initialFormData);
           call OnClose (onClose_throws env) ])
        (emit (ConsoleError (js "Error creating lesson:")))
        (emit (SetIsSubmitting false)) ])).

(** The trace of a submission that passed validation. *)
Definition valid_trace (env : Env) (formData : LessonFormData)
    : list (Effect LessonFormData) :=
  [PreventDefault; SetErrors ∅; SetIsSubmitting true; Await 1500;
   OnSave (cleanedData formData)]
  ++ (if onSave_throws env (cleanedData formData)
      then [ConsoleError (js "Error creating lesson:")]
      else SetFormData initialFormData :: OnClose
           :: (if onClose_throws env
               then [ConsoleError (js "Error creating lesson:")]
               else []))
  ++ [SetIsSubmitting false].

Definition handleClose (env : Env) : Run LessonFormData :=
  block [ emit (SetFormData initialFormData);
          emit (SetErrors ∅);
          call OnClose (onClose_throws env) ].

(** What the user, or a pending submission, can do to the form. *)
Inductive Event :=
| Change (n : FieldName) (value : jsstring)
| ObjectiveChange (index : nat) (value : jsstring)
| AddObjective
| RemoveObjective (index : nat)
| MaterialChange (index : nat) (value : jsstring)
| AddMaterial
| RemoveMaterial (index : nat)
| SubmitEffect (env : Env) (i : nat)    (* i-th effect of handleSubmit *)
| CloseEffect (env : Env) (i : nat).    (* i-th effect of handleClose *)

(** One transition: a handler of the render [snapshot] acts on the
    current state [prev].  The effects of [handleSubmit] are spread over
    time, so each is a transition of its own. *)
Definition handle (snapshot : State) (ev : Event) (prev : State)
    : option State :=
  match ev with
  | Change n value => Some (handleChange snapshot n value prev)
  | ObjectiveChange index value =>
      handleObjectiveChange snapshot index value prev
  | AddObjective => Some (addObjective prev)
  | RemoveObjective index => Some (removeObjective snapshot index prev)
  | MaterialChange index value =>
      handleMaterialChange snapshot index value prev
  | AddMaterial => Some (addMaterial prev)
  | RemoveMaterial index => Some (removeMaterial snapshot index prev)
  | SubmitEffect env i =>
      e ← (handleSubmit env (formData snapshot)).1 !! i;
      Some (apply_effect prev e)
  | CloseEffect env i =>
      e ← (handleClose env).1 !! i;
      Some (apply_effect prev e)
  end.

Definition initialState : State := mkState initialFormData ∅ false false.

(** The states of the component: any earlier state may be the one a
    handler captured. *)
Inductive reachable : State -> Prop :=
| reachable_init : reachable initialState
| reachable_step snapshot prev ev next :
    reachable snapshot -> reachable prev ->
    handle snapshot ev prev = Some next -> reachable next.

(** The invariant of the two lists of the form. *)
Definition lists_non_empty (s : State) : Prop :=
  (1 <= length (objectives (formData s)))%nat /\
  (1 <= length (materials (formData s)))%nat.

(** *** The field-level checks, in the words of the specification *)

Definition non_whitespace (s : jsstring) : bool :=
  negb (forallb is_whitespace s).

Definition title_check (formData : LessonFormData) : bool :=
  truthy (trim (title formData))
  && test textOnlyRegex (trim (title formData)).

Definition subject_check (formData : LessonFormData) : bool :=
  truthy (trim (subject formData)).

Definition description_check (formData : LessonFormData) : bool :=
  truthy (trim (description formData))
  && (20 <=? length (description formData))%nat.

Definition duration_check (formData : LessonFormData) : bool :=
  (15 <=? duration formData) && (duration formData <=? 180).

Definition objectives_check (formData : LessonFormData) : bool :=
  existsb non_whitespace (objectives formData).

Definition category_check (formData : LessonFormData) : bool :=
  truthy (trim (category formData)).

(** Effects of the callbacks, for counting them in a trace. *)
Definition is_onClose (e : Effect LessonFormData) : bool :=
  match e with OnClose => true | _ => false end.

Definition is_consoleError (e : Effect LessonFormData) : bool :=
  match e with ConsoleError _ => true | _ => false end.

End CreateLessonModal.

(* ===================================================================== *)
(** ** StudentDetailModal                                                 *)
(* ===================================================================== *)

Module StudentDetailModal.
Import Js.

Record Student := mkStudent {
  id : jsstring;
  name : jsstring;
  grade : jsstring;
  ecoPoints : Z;
  completedChallenges : Z;
  streak : Z;
  avatar : jsstring;
  school : jsstring;
  state : jsstring;
  joinDate : option jsstring;
  level : option Z;
  completedLessons : option Z;
  badges : option Z
}.

(** One card of the performance overview (the icon component is left
    out). *)
Record Metric := mkMetric {
  label : jsstring;
  value : jsstring;
  color : jsstring;
  bgColor : jsstring
}.

Section Locale.
(** The locale of the browser. *)
Variable locale : Locale.

Definition performanceData (student : Student) : list Metric :=
  [ mkMetric (js "Eco Points")
      (Number_toLocaleString locale (ecoPoints student))
      (js "text-[#F8D991]") (js "bg-[#F8D991]/20");
    mkMetric (js "Current Level")
      (Number_toString
         (match level student with
          | Some l => if l =? 0 then ecoPoints student / 200 + 1 else l
          | None => ecoPoints student / 200 + 1
          end))
      (js "text-[#F6B080]") (js "bg-[#F6B080]/20");
    mkMetric (js "Challenges Completed")
      (Number_toString (completedChallenges student))
      (js "text-[#E1664C]") (js "bg-[#E1664C]/20");
    mkMetric (js "Current Streak")
      (Number_toString (streak student) ++ js " days")
      (js "text-[#F58B60]") (js "bg-[#F58B60]/20") ].

(** What the overview shows under a label:
    [<div>{metric.value}</div> <div>{metric.label}</div>]. *)
Definition displayed (student : Student) (l : jsstring)
    : list jsstring :=
  value <$> filter (fun m => label m = l) (performanceData student).

End Locale.

(** [student.level || Math.floor(student.ecoPoints / 200) + 1] *)
Definition currentLevel (student : Student) : Z :=
  match level student with
  | Some l => if l =? 0 then ecoPoints student / 200 + 1 else l
  | None => ecoPoints student / 200 + 1
  end.

(** The clock of one render, in milliseconds since the epoch, and the
    date constructor. *)
Record Clock := mkClock {
  new_Date : Z;                        (* new Date().getTime() *)
  Date_now : Z;                        (* Date.now(), read after it *)
  Date_parse : jsstring -> option Z    (* new Date(s).getTime(), or NaN *)
}.

(** [daysSinceJoined]; [None] stands for [NaN]. *)
Definition daysSinceJoined (clock : Clock) (student : Student) : option Z :=
  let joinDate :=
    match joinDate student with
    | Some s => if truthy s then Date_parse clock s else Some (new_Date clock)
    | None => Some (new_Date clock)
    end in
  (fun t => (Date_now clock - t) / (1000 * 60 * 60 * 24)) <$> joinDate.

(** One row of the academic progress. *)
Record Progress := mkProgress {
  progress_category : jsstring;
  completed : Z;
  total : Z;
  percentage : Z
}.

Section Random.
(** [floor_random i n] is the value of [Math.floor(Math.random() * n)] at
    the [i]-th evaluation in the component body. *)
Variable floor_random : nat -> Z -> Z.

Definition academicProgress : list Progress :=
  [ mkProgress (js "Climate Change")
      (floor_random 0 8 + 2) 10 (floor_random 1 40 + 60);
    mkProgress (js "Waste Management")
      (floor_random 2 6 + 3) 8 (floor_random 3 30 + 70);
    mkProgress (js "Water Conservation")
      (floor_random 4 5 + 2) 7 (floor_random 5 35 + 50);
    mkProgress (js "Renewable Energy")
      (floor_random 6 4 + 1) 6 (floor_random 7 40 + 40) ].

End Random.

End StudentDetailModal.

(* ===================================================================== *)
(** ** Sample inputs                                                      *)
(* ===================================================================== *)

Module Samples.
Import Js React.

(** A student who filled in every required field. *)
Definition asha : SignUp.FormData :=
  SignUp.mkFormData (js "Asha Rao") (js "asha@school.in") (js "secret1")
    (js "secret1") SignUp.student (Some (js "8th"))
    (Some (js "Green Valley School")) None.

(** A teacher; the email was pasted with a leading space. *)
Definition ravi_pasted : SignUp.FormData :=
  SignUp.mkFormData (js "Ravi Kumar") (js " ravi@school.in") (js "secret1")
    (js "secret1") SignUp.teacher None None None.

(** A student who picked no grade. *)
Definition no_grade : SignUp.FormData :=
  SignUp.mkFormData (js "Asha Rao") (js "asha@school.in") (js "secret1")
    (js "secret1") SignUp.student None None None.

Definition browser : SignUp.Env :=
  SignUp.mkEnv (js "1700000000000") (js "2023-11-14T22:13:20.000Z") false.

Definition idle : React.State SignUp.FormData :=
  mkState asha ∅ false false.

Definition lesson : CreateLessonModal.LessonFormData :=
  CreateLessonModal.mkLesson (js "Rivers and Lakes") (js "Water Conservation")
    (js "How fresh water moves through a region.") 45
    [js "Name the parts of a watershed"; js "   "]
    (js "Beginner") (js "Theory") [] [[]; js "Map"].

Definition parent : CreateLessonModal.Env :=
  CreateLessonModal.mkEnv (fun _ => false) false.

(** The lesson form after two more objectives were added and typed. *)
Definition draft : React.State CreateLessonModal.LessonFormData :=
  mkState
    (CreateLessonModal.mkLesson (js "Rivers and Lakes") []
       [] 30
       [js "Name three rivers"; js "Draw a watershed"; js "Map a lake"]
       (js "Beginner") [] [] [js "Map"; js "Pencils"])
    ∅ false false.

(** The locales en-US, en-IN and es-ES. *)
Definition en_US : Locale := mkLocale (js ",") 3 1 (js "-").

Definition en_IN : Locale := mkLocale (js ",") 2 1 (js "-").

Definition es_ES : Locale := mkLocale (js ".") 3 2 (js "-").

(** A student record without a stored level, and a clock whose two
    readings are a millisecond apart. *)
Definition meera : StudentDetailModal.Student :=
  StudentDetailModal.mkStudent (js "s1") (js "Meera Nair") (js "9th")
    1250 7 3 (js "MN") (js "Hill View School") (js "Kerala")
    (Some (js "2024-01-15")) None None None.

Definition render_clock : StudentDetailModal.Clock :=
  StudentDetailModal.mkClock 1706745600000 1706745600001
    (fun s => if bool_decide (s = js "2024-01-15")
              then Some 1705276800000 else None).

End Samples.

(* ===================================================================== *)
(** ** Facts about the JavaScript model                                   *)
(* ===================================================================== *)

Module JsFacts.
Import Js.

(** *** [trim] *)

Lemma truthy_true (s : jsstring) : truthy s = true <-> s <> [].
Proof. destruct s; simpl; split; congruence. Qed.

Lemma trimStart_split (s : jsstring) :
  exists w, s = w ++ trimStart s /\ forallb is_whitespace w = true.
Proof.
  induction s as [|c s [w [Hs Hw]]]; simpl.
  - exists []. auto.
  - destruct (is_whitespace c) eqn:Hc.
    + exists (c :: w). simpl. rewrite Hc, Hw, <- Hs. auto.
    + exists []. auto.
Qed.

Lemma trimStart_nil (s : jsstring) :
  trimStart s = [] <-> forallb is_whitespace s = true.
Proof.
  induction s as [|c s IH]; simpl; [tauto|].
  destruct (is_whitespace c); simpl; [exact IH|]. split; discriminate.
Qed.

Lemma trimEnd_split (s : jsstring) :
  exists w, s = trimEnd s ++ w /\ forallb is_whitespace w = true.
Proof.
  unfold trimEnd. destruct (trimStart_split (rev s)) as [w [Hs Hw]].
  exists (rev w). split.
  - rewrite <- rev_app_distr, <- Hs, rev_involutive. reflexivity.
  - rewrite forallb_forall in *. intros x Hx. apply Hw.
    apply in_rev. exact Hx.
Qed.

(** A string is its trimmed part between two runs of white space. *)
Lemma trim_split (s : jsstring) :
  exists w1 w2,
    s = w1 ++ trim s ++ w2 /\
    forallb is_whitespace w1 = true /\ forallb is_whitespace w2 = true.
Proof.
  destruct (trimStart_split s) as [w1 [H1 Hw1]].
  destruct (trimEnd_split (trimStart s)) as [w2 [H2 Hw2]].
  exists w1, w2. unfold trim. rewrite <- H2. auto.
Qed.

(** [!s.trim()] holds exactly of the strings made of white space. *)
Lemma trim_nil (s : jsstring) :
  trim s = [] <-> forallb is_whitespace s = true.
Proof.
  split.
  - intros H. destruct (trim_split s) as (w1 & w2 & Hs & H1 & H2).
    rewrite Hs, H, !forallb_app, H1, H2. reflexivity.
  - intros H. unfold trim, trimEnd.
    apply trimStart_nil in H. rewrite H. reflexivity.
Qed.

(** *** The matcher decides the language *)

Lemma lang_seq_inv (r1 r2 : Regex) s :
  lang (Seq r1 r2) s ->
  exists s1 s2, s = s1 ++ s2 /\ lang r1 s1 /\ lang r2 s2.
Proof. intros H. inversion H; subst. eauto. Qed.

Lemma lang_alt_inv (r1 r2 : Regex) s :
  lang (Alt r1 r2) s -> lang r1 s \/ lang r2 s.
Proof. intros H. inversion H; subst; auto. Qed.

Lemma lang_class_inv n items s :
  lang (Class n items) s ->
  exists c, s = [c] /\ class_matches n items c = true.
Proof. intros H. inversion H; subst. eauto. Qed.

Lemma lang_chr_inv c s : lang (Chr c) s -> s = [c].
Proof. intros H. inversion H; subst. reflexivity. Qed.

Lemma lang_eps_inv s : lang Eps s -> s = [].
Proof. intros H. inversion H; subst. reflexivity. Qed.

Lemma lang_void_inv s : ~ lang Void s.
Proof. intros H. inversion H. Qed.

Lemma nullable_lang (r : Regex) : nullable r = true <-> lang r [].
Proof.
  induction r as [| |n items|c|r1 IH1 r2 IH2|r1 IH1 r2 IH2|r IH]; simpl.
  - split; [discriminate|]. intros H. destruct (lang_void_inv _ H).
  - split; [constructor|reflexivity].
  - split; [discriminate|].
    intros H. apply lang_class_inv in H as (c & Hc & _). discriminate.
  - split; [discriminate|].
    intros H. apply lang_chr_inv in H. discriminate.
  - rewrite andb_true_iff, IH1, IH2. split.
    + intros [H1 H2]. change (@nil code_unit) with (@nil code_unit ++ []).
      constructor; assumption.
    + intros H. apply lang_seq_inv in H as (s1 & s2 & Heq & H1 & H2).
      symmetry in Heq. apply app_eq_nil in Heq as [-> ->]. auto.
  - rewrite orb_true_iff, IH1, IH2. split.
    + intros [H|H]; [apply lang_alt_l|apply lang_alt_r]; exact H.
    + apply lang_alt_inv.
  - split; [constructor|reflexivity].
Qed.

Lemma lang_star_cons (r : Regex) c s :
  lang (Star r) (c :: s) ->
  exists s1 s2, s = s1 ++ s2 /\ lang r (c :: s1) /\ lang (Star r) s2.
Proof.
  intros H. remember (Star r) as r' eqn:Hr. remember (c :: s) as t eqn:Ht.
  revert s Ht.
  induction H as [| | | | | | |r0 s1 s2 H1 _ H2 IH2]; try discriminate.
  intros s Ht. injection Hr as ->.
  destruct s1 as [|d s1]; simpl in Ht.
  - apply IH2; auto.
  - injection Ht as -> <-. exists s1, s2. auto.
Qed.

Lemma lang_seq_cons (r1 r2 : Regex) c s1 s2 :
  lang r1 (c :: s1) -> lang r2 s2 -> lang (Seq r1 r2) (c :: s1 ++ s2).
Proof.
  intros H1 H2. change (c :: s1 ++ s2) with ((c :: s1) ++ s2).
  constructor; assumption.
Qed.

Lemma deriv_lang (r : Regex) c s : lang (deriv c r) s <-> lang r (c :: s).
Proof.
  revert s.
  induction r as [| |n items|d|r1 IH1 r2 IH2|r1 IH1 r2 IH2|r IH];
    intros s; simpl.
  - split; intros H; destruct (lang_void_inv _ H).
  - split; intros H; [destruct (lang_void_inv _ H)|].
    apply lang_eps_inv in H. discriminate.
  - destruct (class_matches n items c) eqn:Hc; split; intros H.
    + apply lang_eps_inv in H as ->. constructor. exact Hc.
    + apply lang_class_inv in H as (c' & [= -> ->] & _). constructor.
    + destruct (lang_void_inv _ H).
    + apply lang_class_inv in H as (c' & [= -> ->] & H). congruence.
  - destruct (N.eqb_spec c d) as [->|Hne]; split; intros H.
    + apply lang_eps_inv in H as ->. constructor.
    + apply lang_chr_inv in H as [= ->]. constructor.
    + destruct (lang_void_inv _ H).
    + apply lang_chr_inv in H as [= -> ->]. congruence.
  - assert (Hseq : lang (Seq (deriv c r1) r2) s ->
                   lang (Seq r1 r2) (c :: s)).
    { intros H. apply lang_seq_inv in H as (s1 & s2 & -> & H1 & H2).
      apply lang_seq_cons; [apply IH1|]; assumption. }
    assert (Hcons : forall s1 s2, c :: s = s1 ++ s2 ->
              lang r1 s1 -> lang r2 s2 ->
              (s1 = [] /\ lang r1 [] /\ lang (deriv c r2) s) \/
              lang (Seq (deriv c r1) r2) s).
    { intros s1 s2 Heq H1 H2. destruct s1 as [|d s1]; simpl in Heq.
      - subst. left. split; [reflexivity|]. split; [assumption|].
        apply IH2. exact H2.
      - injection Heq as <- ->. right.
        constructor; [apply IH1|]; assumption. }
    destruct (nullable r1) eqn:Hn.
    + split.
      * intros H. apply lang_alt_inv in H as [H|H]; [auto|].
        change (c :: s) with ([] ++ c :: s).
        constructor; [apply nullable_lang; exact Hn | apply IH2; assumption].
      * intros H. apply lang_seq_inv in H as (s1 & s2 & Heq & H1 & H2).
        destruct (Hcons _ _ Heq H1 H2) as [(_ & _ & H)|H].
        -- apply lang_alt_r. exact H.
        -- apply lang_alt_l. exact H.
    + split; [exact Hseq|].
      intros H. apply lang_seq_inv in H as (s1 & s2 & Heq & H1 & H2).
      destruct (Hcons _ _ Heq H1 H2) as [(_ & H & _)|H]; [|exact H].
      apply nullable_lang in H. congruence.
  - split; intros H; apply lang_alt_inv in H as [H|H];
      solve [apply lang_alt_l, IH1; assumption
            |apply lang_alt_r, IH2; assumption].
  - split.
    + intros H. apply lang_seq_inv in H as (s1 & s2 & -> & H1 & H2).
      change (c :: s1 ++ s2) with ((c :: s1) ++ s2).
      constructor; [apply IH|]; assumption.
    + intros H. apply lang_star_cons in H as (s1 & s2 & -> & H1 & H2).
      constructor; [apply IH|]; assumption.
Qed.

(** [test] is membership in the language. *)
Lemma test_lang (r : Regex) (s : jsstring) : test r s = true <-> lang r s.
Proof.
  revert r. induction s as [|c s IH]; intros r; simpl.
  - apply nullable_lang.
  - rewrite IH. apply deriv_lang.
Qed.

(** *** Character classes under [+] *)

Lemma lang_star_class n items (s : jsstring) :
  lang (Star (Class n items)) s <->
  forallb (class_matches n items) s = true.
Proof.
  split.
  - intros H. remember (Star (Class n items)) as r eqn:Hr.
    induction H as [| | | | | | |r0 s1 s2 H1 _ H2 IH2]; try discriminate.
    + reflexivity.
    + injection Hr as ->.
      apply lang_class_inv in H1 as (c & -> & Hc). simpl.
      rewrite Hc. auto.
  - induction s as [|c s IH]; simpl; [constructor|].
    rewrite andb_true_iff. intros [Hc Hs].
    change (c :: s) with ([c] ++ s).
    constructor; [constructor; exact Hc | auto].
Qed.

Lemma lang_plus_class n items (s : jsstring) :
  lang (Plus (Class n items)) s <->
  s <> [] /\ forallb (class_matches n items) s = true.
Proof.
  unfold Plus. split.
  - intros H. apply lang_seq_inv in H as (s1 & s2 & -> & H1 & H2).
    apply lang_class_inv in H1 as (c & -> & Hc).
    apply lang_star_class in H2. simpl. rewrite Hc, H2. split; [discriminate|reflexivity].
  - intros [Hne H]. destruct s as [|c s]; [congruence|].
    simpl in H. apply andb_true_iff in H as [Hc Hs].
    change (c :: s) with ([c] ++ s).
    constructor; [constructor; exact Hc | apply lang_star_class; exact Hs].
Qed.

(** [/^[...]+$/.test(s)]: [s] is not empty and all its code units are
    in the class. *)
Lemma test_plus_class n items (s : jsstring) :
  test (Plus (Class n items)) s
  = truthy s && forallb (class_matches n items) s.
Proof.
  apply eq_true_iff_eq.
  rewrite test_lang, lang_plus_class, andb_true_iff, truthy_true.
  reflexivity.
Qed.

(** Trimming does not change the outcome of such a test when the class
    contains [\s] and something is left after trimming. *)
Lemma test_plus_class_trim items (s : jsstring) :
  In CSpace items -> trim s <> [] ->
  test (Plus (Class false items)) (trim s)
  = test (Plus (Class false items)) s.
Proof.
  intros Hin Hne.
  assert (Hws : forall w, forallb is_whitespace w = true ->
                forallb (class_matches false items) w = true).
  { intros w Hw. rewrite forallb_forall in *. intros c Hc.
    unfold class_matches. simpl. apply existsb_exists.
    exists CSpace. split; [exact Hin|]. simpl. auto. }
  destruct (trim_split s) as (w1 & w2 & Hs & H1 & H2).
  rewrite !test_plus_class.
  assert (Hs' : truthy s = true).
  { apply truthy_true. intros ->. apply Hne. reflexivity. }
  apply truthy_true in Hne. rewrite Hne, Hs'. simpl.
  rewrite Hs at 2. rewrite !forallb_app, (Hws _ H1), (Hws _ H2).
  simpl. rewrite andb_true_r. reflexivity.
Qed.

End JsFacts.

(* ===================================================================== *)
(** ** Facts about error objects and blocks                               *)
(* ===================================================================== *)

Module ReactFacts.
Import Js React JsFacts.

Lemma no_keys_empty {V} (o : gmap string V) : no_keys o = true <-> o = ∅.
Proof.
  unfold no_keys, Object_keys. rewrite Nat.eqb_eq, length_fmap.
  split.
  - intros H. apply map_to_list_empty_iff.
    destruct (map_to_list o); [reflexivity|discriminate].
  - intros ->. rewrite map_to_list_empty. reflexivity.
Qed.

Lemma no_keys_insert {V} (o : gmap string V) k v :
  no_keys (<[k := v]> o) = false.
Proof.
  apply not_true_iff_false. rewrite no_keys_empty.
  apply insert_non_empty.
Qed.

(** An assignment under a condition: [if (c) o.k = v]. *)
Lemma no_keys_if {V} (c : bool) k (v : V) (o o' : gmap string V) :
  no_keys (if c then <[k := v]> o else o') = negb c && no_keys o'.
Proof. destruct c; simpl; [apply no_keys_insert|reflexivity]. Qed.

Lemma has_error_empty k : has_error ∅ k = false.
Proof. unfold has_error. rewrite lookup_empty. reflexivity. Qed.

Lemma has_error_insert k k' (v : option jsstring) (o : FormErrors) :
  has_error (<[k := v]> o) k'
  = if bool_decide (k = k') then truthy_opt v else has_error o k'.
Proof.
  unfold has_error. case_bool_decide as Hk.
  - subst. rewrite lookup_insert_eq. reflexivity.
  - rewrite lookup_insert_ne by exact Hk. reflexivity.
Qed.

Lemma no_keys_if2 {V} (a c : bool) k (v : V) (o : gmap string V) :
  no_keys (if a then if c then <[k := v]> o else o else o)
  = negb (a && c) && no_keys o.
Proof. destruct a, c; simpl; auto using no_keys_insert. Qed.

(** One validation step, [if (c) o.k = v] with a truthy [v], read at any
    key. *)
Lemma step1 k k' (c : bool) (v : option jsstring) (o : FormErrors) :
  (c = true -> truthy_opt v = true) ->
  has_error (if c then <[k := v]> o else o) k'
  = bool_decide (k = k') && c || has_error o k'.
Proof.
  intros Hv. destruct c; [|rewrite andb_false_r; reflexivity].
  rewrite has_error_insert, Hv by reflexivity.
  destruct (bool_decide (k = k')); reflexivity.
Qed.

(** The same under an enclosing test, [if (a) { if (c) o.k = v }]. *)
Lemma step1_nested k k' (a c : bool) (v : option jsstring)
    (o : FormErrors) :
  (c = true -> truthy_opt v = true) ->
  has_error (if a then if c then <[k := v]> o else o else o) k'
  = bool_decide (k = k') && (a && c) || has_error o k'.
Proof.
  intros Hv. destruct a; [apply step1; exact Hv|].
  rewrite andb_false_r. reflexivity.
Qed.

(** The same for [if (c1) o.k = v1; else if (c2) o.k = v2]. *)
Lemma step2 k k' (c1 c2 : bool) (v1 v2 : option jsstring)
    (o : FormErrors) :
  (c1 = true -> truthy_opt v1 = true) ->
  (c2 = true -> truthy_opt v2 = true) ->
  has_error (if c1 then <[k := v1]> o
             else if c2 then <[k := v2]> o else o) k'
  = bool_decide (k = k') && (c1 || c2) || has_error o k'.
Proof.
  intros H1 H2. destruct c1.
  - rewrite has_error_insert, H1 by reflexivity.
    destruct (bool_decide (k = k')); reflexivity.
  - apply step1. exact H2.
Qed.

Lemma lookup_step1_other {V} k k' (c : bool) (v : V) (o : gmap string V) :
  k <> k' -> (if c then <[k := v]> o else o) !! k' = o !! k'.
Proof. intros Hk. destruct c; [apply lookup_insert_ne; exact Hk|done]. Qed.

Ltac truthy_value := intros; first [assumption | reflexivity].

Ltac peel :=
  repeat first [ rewrite step2 by truthy_value
               | rewrite step1_nested by truthy_value
               | rewrite step1 by truthy_value ];
  rewrite ?has_error_empty.

(** [bool_decide] on two string literals. *)
Ltac decide_keys :=
  repeat match goal with
         | |- context [bool_decide (?a = ?b)] =>
             first [ rewrite (bool_decide_eq_true_2 (a = b)) by reflexivity
                   | rewrite (bool_decide_eq_false_2 (a = b)) by done ]
         end.

Lemma truthy_app_r (s t : jsstring) : truthy t = true -> truthy (s ++ t) = true.
Proof. destruct s, t; simpl; auto. Qed.

Lemma truthy_trim (s : jsstring) : truthy (trim s) = true -> truthy s = true.
Proof.
  rewrite !truthy_true. intros H ->. apply H. reflexivity.
Qed.

End ReactFacts.

(* ===================================================================== *)
(** ** The sign-up form                                                   *)
(* ===================================================================== *)

Module SignUpProofs.
Import Js React JsFacts ReactFacts SignUp.

Lemma signUp_validateTextOnly_truthy value fieldName :
  truthy_opt (validateTextOnly value fieldName)
  = truthy value && negb (test textOnlyRegex value).
Proof.
  unfold validateTextOnly.
  destruct (truthy value && negb (test textOnlyRegex value));
    [|reflexivity].
  simpl. apply truthy_app_r. reflexivity.
Qed.

Ltac open_validateForm fd :=
  unfold validateForm;
  destruct fd as [n e p c r g s st];
  cbn [fst snd name email password confirmPassword role grade school state];
  cbv zeta.

(** The conditions of the source, field by field, against the checks. *)
Lemma name_conditions n :
  negb (truthy (trim n)) || truthy_opt (validateTextOnly n (js "Name"))
  = negb (truthy (trim n) && test textOnlyRegex n).
Proof.
  rewrite signUp_validateTextOnly_truthy. pose proof (truthy_trim n) as Hn.
  destruct (truthy (trim n)); [rewrite Hn by reflexivity|]; btauto.
Qed.

Lemma email_conditions e :
  negb (truthy (trim e)) || negb (test emailRegex e)
  = negb (truthy (trim e) && test emailRegex e).
Proof. btauto. Qed.

Lemma password_conditions (p : jsstring) :
  negb (truthy p) || (length p <? 6)%nat
  = negb (truthy p && (6 <=? length p)%nat).
Proof. rewrite Nat.ltb_antisym. btauto. Qed.

Lemma confirmPassword_conditions (p c : jsstring) :
  negb (truthy c) || negb (bool_decide (p = c))
  = negb (truthy c && bool_decide (c = p)).
Proof.
  rewrite (bool_decide_ext (p = c) (c = p)) by (split; congruence). btauto.
Qed.

Lemma grade_conditions r g :
  bool_decide (r = student) && negb (truthy_opt g)
  = negb (match r with student => present g | teacher => true end).
Proof. destruct r; reflexivity. Qed.

Lemma school_conditions s :
  truthy s = true ->
  truthy_opt (validateTextOnly s (js "School name"))
  = negb (test textOnlyRegex s).
Proof. intros Hs. rewrite signUp_validateTextOnly_truthy, Hs. reflexivity. Qed.

(** The value [validateForm] returns is the conjunction of the checks of
    the source. *)
Lemma signUp_validateForm_returns (fd : FormData) :
  (validateForm fd).2
  = name_check fd && email_check fd && password_check fd
    && confirmPassword_check fd && grade_check fd && school_check fd.
Proof.
  unfold name_check, email_check, password_check, confirmPassword_check,
    grade_check, school_check, present.
  open_validateForm fd.
  assert (Hschool : forall o : FormErrors,
    no_keys
      match s with
      | Some s0 =>
          if truthy s0 then
            if truthy_opt (validateTextOnly s0 (js "School name"))
            then <["school" := validateTextOnly s0 (js "School name")]> o
            else o
          else o
      | None => o
      end
    = (if truthy_opt s then test textOnlyRegex (default [] s) else true)
      && no_keys o).
  { intros o. destruct s as [s|]; cbn [truthy_opt default]; [|reflexivity].
    destruct (truthy s) eqn:Hs; [|reflexivity].
    rewrite no_keys_if, school_conditions, negb_involutive by exact Hs.
    reflexivity. }
  rewrite Hschool, no_keys_if2, !no_keys_if.
  rewrite (proj2 (no_keys_empty (∅ : FormErrors)) eq_refl).
  assert (Hpair : forall x y R, negb x && (negb y && R) = negb (x || y) && R)
    by (intros [] [] []; reflexivity).
  rewrite (Hpair (negb (truthy c))), (Hpair (negb (truthy p))),
    (Hpair (negb (truthy (trim e)))), (Hpair (negb (truthy (trim n)))).
  rewrite name_conditions, email_conditions, password_conditions,
    confirmPassword_conditions, grade_conditions.
  rewrite !negb_involutive. unfold present.
  generalize (if truthy_opt s then test textOnlyRegex (default [] s)
              else true),
    (match r with student => truthy_opt g | teacher => true end),
    (truthy c && bool_decide (c = p)),
    (truthy p && (6 <=? length p)%nat),
    (truthy (trim e) && test emailRegex e),
    (truthy (trim n) && test textOnlyRegex n).
  intros; btauto.
Qed.

(** The message at a key: a field carries one exactly when its check
    fails. *)
Lemma validateForm_error_at (fd : FormData) (k : string) :
  has_error (validateForm fd).1 k
  = bool_decide ("school" = k) && negb (school_check fd)
    || (bool_decide ("grade" = k) && negb (grade_check fd)
    || (bool_decide ("confirmPassword" = k)
        && negb (confirmPassword_check fd)
    || (bool_decide ("password" = k) && negb (password_check fd)
    || (bool_decide ("email" = k) && negb (email_check fd)
    || (bool_decide ("name" = k) && negb (name_check fd)))))).
Proof.
  unfold name_check, email_check, password_check, confirmPassword_check,
    grade_check, school_check, present.
  rewrite <- name_conditions, <- email_conditions, <- password_conditions,
    <- confirmPassword_conditions, <- grade_conditions.
  open_validateForm fd.
  destruct s as [s|]; cbn [truthy_opt default];
    [destruct (truthy s) eqn:Hs|];
    peel; rewrite ?orb_false_r.
  - rewrite (school_conditions s Hs). reflexivity.
  - cbn [negb]. rewrite andb_false_r. reflexivity.
  - cbn [negb]. rewrite andb_false_r. reflexivity.
Qed.

Lemma validateForm_errors (fd : FormData) :
  let e := (validateForm fd).1 in
  has_error e "name" = negb (name_check fd) /\
  has_error e "email" = negb (email_check fd) /\
  has_error e "password" = negb (password_check fd) /\
  has_error e "confirmPassword" = negb (confirmPassword_check fd) /\
  has_error e "grade" = negb (grade_check fd) /\
  has_error e "school" = negb (school_check fd) /\
  forall k, has_error e k = true -> k ∈ field_keys.
Proof.
  cbv zeta. repeat split;
    [..|intros k; destruct (decide (k ∈ field_keys)) as [|Hk]; [done|];
        unfold field_keys in Hk;
        repeat (apply not_elem_of_cons in Hk as [? Hk])].
  all: rewrite validateForm_error_at.
  1-6: decide_keys; cbn [andb orb]; rewrite ?orb_false_r; reflexivity.
  rewrite !bool_decide_eq_false_2 by done. discriminate.
Qed.

(** The checks as propositions. *)
Lemma name_check_true fd :
  name_check fd = true <->
  trim (name fd) <> [] /\ test textOnlyRegex (name fd) = true.
Proof.
  unfold name_check. rewrite andb_true_iff, truthy_true. reflexivity.
Qed.

Lemma email_check_true fd :
  email_check fd = true <->
  trim (email fd) <> [] /\ test emailRegex (email fd) = true.
Proof.
  unfold email_check. rewrite andb_true_iff, truthy_true. reflexivity.
Qed.

Lemma password_check_true fd :
  password_check fd = true <->
  password fd <> [] /\ (6 <= length (password fd))%nat.
Proof.
  unfold password_check.
  rewrite andb_true_iff, truthy_true, Nat.leb_le. reflexivity.
Qed.

Lemma confirmPassword_check_true fd :
  confirmPassword_check fd = true <->
  confirmPassword fd <> [] /\ confirmPassword fd = password fd.
Proof.
  unfold confirmPassword_check.
  rewrite andb_true_iff, truthy_true, bool_decide_eq_true. reflexivity.
Qed.

Lemma grade_check_true fd :
  grade_check fd = true <->
  (role fd = student -> present (grade fd) = true).
Proof.
  unfold grade_check. destruct (role fd); intuition congruence.
Qed.

Lemma school_check_true fd :
  school_check fd = true <->
  (forall s, school fd = Some s -> s <> [] ->
             test textOnlyRegex s = true).
Proof.
  unfold school_check, present.
  destruct (school fd) as [[|c s]|]; cbn [truthy_opt truthy default].
  - split; [intros _ s [= <-] H; congruence | reflexivity].
  - split; [intros H s' [= <-] _; exact H | intros H; apply H; done].
  - split; [intros _ s [=] | reflexivity].
Qed.

Lemma iff_not_true (b : bool) (P : Prop) :
  (b = true <-> P) -> (negb b = true <-> ~ P).
Proof. destruct b; simpl; intuition congruence. Qed.

(** *** What the email pattern accepts *)

Lemma email_class (c : code_unit) :
  class_matches true [CSpace; CChar (chr "@")] c = true <->
  is_whitespace c = false /\ c <> chr "@".
Proof.
  unfold class_matches. cbn [existsb item_matches].
  destruct (is_whitespace c), (N.eqb_spec c (chr "@"));
    simpl; intuition congruence.
Qed.

Lemma email_part (s : jsstring) :
  lang (Plus (Class true [CSpace; CChar (chr "@")])) s <->
  s <> [] /\ Forall (fun c => is_whitespace c = false /\ c <> chr "@") s.
Proof.
  rewrite lang_plus_class, forallb_forall, Forall_forall.
  split; intros [Hne H]; (split; [exact Hne|]); intros c Hc.
  - apply email_class, H, list_elem_of_In, Hc.
  - apply email_class, H, list_elem_of_In, Hc.
Qed.

(** [/^[^\s@]+@[^\s@]+\.[^\s@]+$/] accepts [local@domain.tld], three
    non-empty runs free of white space and of [@]. *)
Lemma emailRegex_accepts (s : jsstring) :
  test emailRegex s = true <->
  exists loc dom tld,
    s = loc ++ chr "@" :: dom ++ chr "." :: tld /\
    lang (Plus (Class true [CSpace; CChar (chr "@")])) loc /\
    lang (Plus (Class true [CSpace; CChar (chr "@")])) dom /\
    lang (Plus (Class true [CSpace; CChar (chr "@")])) tld.
Proof.
  rewrite test_lang. unfold emailRegex. split.
  - intros H.
    apply lang_seq_inv in H as (loc & r1 & -> & Hloc & H).
    apply lang_seq_inv in H as (at_ & r2 & -> & Hat & H).
    apply lang_chr_inv in Hat as ->.
    apply lang_seq_inv in H as (dom & r3 & -> & Hdom & H).
    apply lang_seq_inv in H as (dot & tld & -> & Hdot & Htld).
    apply lang_chr_inv in Hdot as ->.
    exists loc, dom, tld. auto.
  - intros (loc & dom & tld & -> & Hloc & Hdom & Htld).
    constructor; [exact Hloc|].
    change (chr "@" :: dom ++ chr "." :: tld)
      with ([chr "@"] ++ dom ++ [chr "."] ++ tld).
    repeat (constructor; try assumption).
Qed.

(** An accepted email has no white space, so trimming leaves it as it
    is: the check on the email as entered implies the check on the
    trimmed email, not the other way round. *)
Lemma emailRegex_no_whitespace (s : jsstring) :
  test emailRegex s = true -> Forall (fun c => is_whitespace c = false) s.
Proof.
  intros (loc & dom & tld & -> & Hloc & Hdom & Htld)%emailRegex_accepts.
  apply email_part in Hloc as [_ Hloc].
  apply email_part in Hdom as [_ Hdom].
  apply email_part in Htld as [_ Htld].
  assert (Hweak : forall l,
            Forall (fun c => is_whitespace c = false /\ c <> chr "@") l ->
            Forall (fun c => is_whitespace c = false) l).
  { intros l Hl. eapply Forall_impl; [exact Hl|]. simpl. tauto. }
  apply Forall_app. split; [auto|].
  constructor; [reflexivity|].
  apply Forall_app. split; [auto|].
  constructor; [reflexivity|auto].
Qed.

Lemma trimStart_id (s : jsstring) :
  Forall (fun c => is_whitespace c = false) s -> trimStart s = s.
Proof.
  destruct 1 as [|c s Hc _]; simpl; [reflexivity|].
  rewrite Hc. reflexivity.
Qed.

Lemma trim_id (s : jsstring) :
  Forall (fun c => is_whitespace c = false) s -> trim s = s.
Proof.
  intros H. unfold trim, trimEnd. rewrite (trimStart_id s H).
  rewrite trimStart_id by (apply Forall_rev; exact H).
  apply rev_involutive.
Qed.

Lemma email_check_trimmed (fd : FormData) :
  email_check fd = true -> trimmed_email_check fd = true.
Proof.
  unfold email_check, trimmed_email_check.
  rewrite !andb_true_iff. intros [Hne Hm]. split; [exact Hne|].
  rewrite (trim_id _ (emailRegex_no_whitespace _ Hm)). exact Hm.
Qed.

(** C1, as amended: [validateForm] returns [true] exactly when every
    field-level check passes -- the trimmed name is non-empty and the
    name matches the text-only pattern; the trimmed email is non-empty
    and the email as entered, untrimmed, matches the email pattern; the
    password is non-empty and at least 6 long; the confirmation is
    non-empty and equal to the password; a student has a grade (a
    non-empty one); a school, when one was entered (non-empty), matches
    the text-only pattern.  Otherwise it returns [false], and the object
    handed to [setErrors] carries a message for a field exactly when the
    check of that field fails, and for no other key. *)
Theorem validateForm_field_checks (fd : FormData) :
  ((validateForm fd).2 = true <->
     (trim (name fd) <> [] /\ test textOnlyRegex (name fd) = true) /\
     (trim (email fd) <> [] /\ test emailRegex (email fd) = true) /\
     (password fd <> [] /\ (6 <= length (password fd))%nat) /\
     (confirmPassword fd <> [] /\ confirmPassword fd = password fd) /\
     (role fd = student -> present (grade fd) = true) /\
     (forall s, school fd = Some s -> s <> [] ->
                test textOnlyRegex s = true)) /\
  (has_error (validateForm fd).1 "name" = true <->
     ~ (trim (name fd) <> [] /\ test textOnlyRegex (name fd) = true)) /\
  (has_error (validateForm fd).1 "email" = true <->
     ~ (trim (email fd) <> [] /\ test emailRegex (email fd) = true)) /\
  (has_error (validateForm fd).1 "password" = true <->
     ~ (password fd <> [] /\ (6 <= length (password fd))%nat)) /\
  (has_error (validateForm fd).1 "confirmPassword" = true <->
     ~ (confirmPassword fd <> [] /\ confirmPassword fd = password fd)) /\
  (has_error (validateForm fd).1 "grade" = true <->
     ~ (role fd = student -> present (grade fd) = true)) /\
  (has_error (validateForm fd).1 "school" = true <->
     ~ (forall s, school fd = Some s -> s <> [] ->
                  test textOnlyRegex s = true)) /\
  (forall k, has_error (validateForm fd).1 k = true -> k ∈ field_keys).
Proof.
  split.
  - rewrite signUp_validateForm_returns, !andb_true_iff.
    rewrite name_check_true, email_check_true, password_check_true,
      confirmPassword_check_true, grade_check_true, school_check_true.
    tauto.
  - destruct (validateForm_errors fd)
      as (Hn & He & Hp & Hc & Hg & Hs & Hk).
    rewrite Hn, He, Hp, Hc, Hg, Hs.
    split; [apply iff_not_true, name_check_true|].
    split; [apply iff_not_true, email_check_true|].
    split; [apply iff_not_true, password_check_true|].
    split; [apply iff_not_true, confirmPassword_check_true|].
    split; [apply iff_not_true, grade_check_true|].
    split; [apply iff_not_true, school_check_true|].
    exact Hk.
Qed.

(** C1, as worded: with the email pattern applied to the trimmed email
    the equivalence fails.  A form whose email was pasted with a leading
    space, [" ravi@school.in"], passes every check worded that way, and
    [validateForm] returns [false] for it, with the message of the email
    field. *)
Lemma validateForm_trimmed_email_counterexample :
  ((validateForm Samples.ravi_pasted).2 = false /\
   (validateForm Samples.ravi_pasted).1 !! "email"
     = Some (Some (js "Please enter a valid email address"))) /\
  (trim (name Samples.ravi_pasted) <> [] /\
   test textOnlyRegex (name Samples.ravi_pasted) = true) /\
  (trim (email Samples.ravi_pasted) <> [] /\
   test emailRegex (trim (email Samples.ravi_pasted)) = true) /\
  (password Samples.ravi_pasted <> [] /\
   (6 <= length (password Samples.ravi_pasted))%nat) /\
  (confirmPassword Samples.ravi_pasted <> [] /\
   confirmPassword Samples.ravi_pasted = password Samples.ravi_pasted) /\
  (role Samples.ravi_pasted = student ->
   present (grade Samples.ravi_pasted) = true) /\
  (forall s, school Samples.ravi_pasted = Some s -> s <> [] ->
             test textOnlyRegex s = true).
Proof.
  split; [split; vm_compute; reflexivity|].
  split; [split; [vm_compute; discriminate | vm_compute; reflexivity]|].
  split; [split; [vm_compute; discriminate | vm_compute; reflexivity]|].
  split; [split; [vm_compute; discriminate | vm_compute; lia]|].
  split; [split; [vm_compute; discriminate | reflexivity]|].
  split; [intros [=] | intros s [=]].
Qed.

(** *** The two shapes of a run of [handleSubmit] *)

Lemma signUp_handleSubmit_invalid env fd :
  (validateForm fd).2 = false ->
  handleSubmit env fd
  = ([PreventDefault; SetErrors (validateForm fd).1], Normal).
Proof.
  unfold handleSubmit. destruct (validateForm fd) as [e ok]. simpl.
  intros ->. reflexivity.
Qed.

Lemma signUp_handleSubmit_valid env fd :
  (validateForm fd).2 = true ->
  handleSubmit env fd
  = (if setItem_throws env then failure_trace else success_trace env fd,
     Normal).
Proof.
  intros Hv.
  assert (He : (validateForm fd).1 = ∅).
  { apply no_keys_empty. exact Hv. }
  unfold handleSubmit, localStorage_setItem.
  destruct (validateForm fd) as [e ok]. simpl in *. subst.
  destruct (setItem_throws env); reflexivity.
Qed.

Lemma valid_grade_check fd :
  (validateForm fd).2 = true -> grade_check fd = true.
Proof.
  rewrite signUp_validateForm_returns, !andb_true_iff. tauto.
Qed.

(** C4: when [validateForm] returns [false], [handleSubmit] stops after
    recording the messages: it never sets [isSubmitting], waits for
    nothing, writes nothing to the browser storage, does not set
    [isSuccess] and schedules no navigation; of the state only [errors]
    changes, to the messages of [validateForm]. *)
Theorem handleSubmit_gated_by_validation env fd (s : React.State FormData) :
  (validateForm fd).2 = false ->
  handleSubmit env fd
    = ([PreventDefault; SetErrors (validateForm fd).1], Normal) /\
  List.filter is_setIsSubmitting (handleSubmit env fd).1 = [] /\
  List.filter is_delay (handleSubmit env fd).1 = [] /\
  List.filter is_storage_write (handleSubmit env fd).1 = [] /\
  List.filter is_setIsSuccess (handleSubmit env fd).1 = [] /\
  List.filter is_navigation (handleSubmit env fd).1 = [] /\
  run_trace s (handleSubmit env fd).1
    = mkState (formData s) (validateForm fd).1
              (isSubmitting s) (isSuccess s).
Proof.
  intros Hv. rewrite (signUp_handleSubmit_invalid env fd Hv).
  repeat split.
Qed.

Lemma handleSubmit_gated_by_validation_witness :
  List.filter is_storage_write
    (handleSubmit Samples.browser Samples.no_grade).1 = [] /\
  run_trace Samples.idle (handleSubmit Samples.browser Samples.no_grade).1
    = mkState Samples.asha (validateForm Samples.no_grade).1 false false.
Proof.
  destruct (handleSubmit_gated_by_validation
              Samples.browser Samples.no_grade Samples.idle)
    as (_ & _ & _ & Hw & _ & _ & Hs).
  - vm_compute. reflexivity.
  - split; [exact Hw | exact Hs].
Defined.

(** C5: a run of [handleSubmit] that passes validation goes from idle to
    submitting and from there either to success or, when the storage
    write throws, to the failure state whose only message is
    'Registration failed. Please try again.'; it completes normally and
    in both outcomes [isSubmitting] is [false] at the end.  A run that
    starts in the failure state of an earlier one first returns to idle,
    validation having cleared the message. *)
Theorem submission_flow env fd (s0 : React.State FormData) :
  (validateForm fd).2 = true ->
  isSubmitting s0 = false -> isSuccess s0 = false ->
  (handleSubmit env fd).2 = Normal /\
  path (phase s0) (phase <$> states_of s0 (handleSubmit env fd).1)
    = (if has_error (errors s0) "general" then [Failed] else [])
      ++ [Idle; Submitting; if setItem_throws env then Failed else Success]
  /\
  isSubmitting (run_trace s0 (handleSubmit env fd).1) = false /\
  (if setItem_throws env then
     isSuccess (run_trace s0 (handleSubmit env fd).1) = false /\
     errors (run_trace s0 (handleSubmit env fd).1)
       = {["general" := Some (js "Registration failed. Please try again.")]}
   else
     isSuccess (run_trace s0 (handleSubmit env fd).1) = true /\
     errors (run_trace s0 (handleSubmit env fd).1) = ∅).
Proof.
  intros Hv Hsub Hsuc. rewrite (signUp_handleSubmit_valid env fd Hv).
  destruct s0 as [f e sub suc]. simpl in Hsub, Hsuc. subst sub suc.
  assert (Hempty : has_error (∅ : FormErrors) "general" = false)
    by apply has_error_empty.
  assert (Hgeneral :
    has_error ({["general" :=
                   Some (js "Registration failed. Please try again.")]}
               : FormErrors) "general" = true)
    by (unfold has_error; rewrite lookup_singleton_eq; reflexivity).
  destruct (setItem_throws env); cbn [fst snd];
    (split; [reflexivity|]); (split; [|repeat split]).
  - unfold failure_trace, phase.
    cbn [states_of apply_effect fmap list_fmap path
         formData errors isSubmitting isSuccess].
    rewrite Hempty, Hgeneral.
    destruct (has_error e "general"); reflexivity.
  - unfold success_trace, phase.
    cbn [states_of apply_effect fmap list_fmap path
         formData errors isSubmitting isSuccess].
    rewrite Hempty.
    destruct (has_error e "general"); reflexivity.
Qed.

Lemma submission_flow_witness :
  path Idle (phase <$> states_of Samples.idle
                         (handleSubmit Samples.browser Samples.asha).1)
    = [Idle; Submitting; Success] /\
  isSubmitting (run_trace Samples.idle
                  (handleSubmit Samples.browser Samples.asha).1) = false.
Proof.
  destruct (submission_flow Samples.browser Samples.asha Samples.idle)
    as (_ & Hp & Hs & _).
  - vm_compute. reflexivity.
  - reflexivity.
  - reflexivity.
  - split; [exact Hp | exact Hs].
Defined.

(** C3: after a successful submission of a valid form the one scheduled
    navigation goes to '/dashboard' for a student and to '/teacher' for
    a teacher; and a grade message is recorded, which makes validation
    fail, exactly when the role is student and no grade is present --
    never for a teacher. *)
Theorem role_branching env fd :
  (validateForm fd).2 = true -> setItem_throws env = false ->
  List.filter is_navigation (handleSubmit env fd).1
    = [SetTimeout
         (Navigate (match role fd with
                    | student => js "/dashboard"
                    | teacher => js "/teacher"
                    end)) 2000] /\
  (forall fd',
     has_error (validateForm fd').1 "grade" = true <->
     role fd' = student /\ present (grade fd') = false) /\
  (forall fd',
     has_error (validateForm fd').1 "grade" = true ->
     (validateForm fd').2 = false).
Proof.
  intros Hv Hok. rewrite (signUp_handleSubmit_valid env fd Hv), Hok.
  split; [reflexivity|].
  split; intros fd';
    pose proof (validateForm_errors fd') as (? & ? & ? & ? & Hg & ?);
    rewrite Hg.
  - unfold grade_check. destruct (role fd'), (present (grade fd'));
      simpl; intuition congruence.
  - rewrite signUp_validateForm_returns. intros Hgc%negb_true_iff. rewrite Hgc.
    rewrite andb_false_r. reflexivity.
Qed.

Lemma role_branching_witness :
  List.filter is_navigation (handleSubmit Samples.browser Samples.asha).1
  = [SetTimeout (Navigate (js "/dashboard")) 2000].
Proof.
  destruct (role_branching Samples.browser Samples.asha) as (Hn & _).
  - vm_compute. reflexivity.
  - reflexivity.
  - exact Hn.
Defined.

(** C6: a successful sign-up writes to the browser storage once, under
    the key 'currentUser'.  The record written has the name, the email
    and the role of the form, an id and a joinDate; it has a grade
    member exactly when the role is student, a school member exactly
    when a non-empty school was entered and a state member exactly when
    a non-empty state was selected, each with the value of the form. *)
Theorem currentUser_record env fd :
  (validateForm fd).2 = true -> setItem_throws env = false ->
  exists record,
    List.filter is_storage_write (handleSubmit env fd).1
      = [LocalStorageSetItem (js "currentUser") record] /\
    JSON_get "name" record = Some (name fd) /\
    JSON_get "email" record = Some (email fd) /\
    JSON_get "role" record = Some (Role_string (role fd)) /\
    JSON_get "id" record = Some (Date_now_toString env) /\
    JSON_get "joinDate" record = Some (Date_toISOString env) /\
    (is_Some (JSON_get "grade" record) <-> role fd = student) /\
    (is_Some (JSON_get "school" record) <-> present (school fd) = true) /\
    (is_Some (JSON_get "state" record) <-> present (state fd) = true) /\
    (role fd = student -> JSON_get "grade" record = grade fd) /\
    (present (school fd) = true -> JSON_get "school" record = school fd) /\
    (present (state fd) = true -> JSON_get "state" record = state fd).
Proof.
  intros Hv Hok. rewrite (signUp_handleSubmit_valid env fd Hv), Hok.
  eexists. split; [reflexivity|].
  pose proof (valid_grade_check fd Hv) as Hg. clear Hv.
  destruct fd as [n e p c r g s st]. unfold grade_check, present in *.
  cbn [role grade school state name email] in *.
  unfold userData.
  cbn [role grade school state name email].
  destruct r, g as [[|g0 g]|], s as [[|s0 s]|], st as [[|t0 st]|];
    simpl in Hg; try discriminate Hg;
    vm_compute; repeat split; intros;
    first [ done | by eexists
          | match goal with H : ex _ |- _ => by destruct H end ].
Qed.

Lemma currentUser_record_witness :
  exists record,
    List.filter is_storage_write
      (handleSubmit Samples.browser Samples.asha).1
      = [LocalStorageSetItem (js "currentUser") record] /\
    JSON_get "grade" record = Some (js "8th") /\
    JSON_get "state" record = None.
Proof.
  destruct (currentUser_record Samples.browser Samples.asha)
    as (record & Hw & _ & _ & _ & _ & _ & _ & _ & _ & Hg & _).
  - vm_compute. reflexivity.
  - reflexivity.
  - exists record. split; [exact Hw|]. split; [exact (Hg eq_refl)|].
    vm_compute in Hw. injection Hw as <-. vm_compute. reflexivity.
Defined.

End SignUpProofs.

(* ===================================================================== *)
(** ** The lesson modal                                                   *)
(* ===================================================================== *)

Module CreateLessonModalProofs.
Import Js React JsFacts ReactFacts CreateLessonModal.

Lemma lesson_validateTextOnly_truthy value fieldName :
  truthy_opt (validateTextOnly value fieldName)
  = truthy value && negb (test textOnlyRegex value).
Proof.
  unfold validateTextOnly.
  destruct (truthy value && negb (test textOnlyRegex value));
    [|reflexivity].
  simpl. apply truthy_app_r. reflexivity.
Qed.

(** *** [filter] *)

Lemma filter_from_value {A} (p : A -> bool) i (a : list A) :
  filter_from (fun x _ => p x) i a = List.filter p a.
Proof.
  revert i. induction a as [|x a IH]; intros i; simpl; [reflexivity|].
  rewrite IH. reflexivity.
Qed.

Lemma Array_filter_value {A} (p : A -> bool) (a : list A) :
  Array_filter (fun x _ => p x) a = List.filter p a.
Proof. apply filter_from_value. Qed.

Lemma filter_none {A} (p : A -> bool) (a : list A) :
  (length (List.filter p a) =? 0)%nat = negb (existsb p a).
Proof.
  induction a as [|x a IH]; simpl; [reflexivity|].
  destruct (p x); simpl; [reflexivity|exact IH].
Qed.

(** Past the index to drop, nothing is dropped. *)
Lemma filter_from_past {A} index i (a : list A) :
  (index < i)%nat ->
  filter_from (fun _ j => negb (j =? index)%nat) i a = a.
Proof.
  revert i. induction a as [|x a IH]; intros i Hi; simpl; [reflexivity|].
  destruct (Nat.eqb_spec i index) as [->|_]; [lia|].
  simpl. rewrite IH by lia. reflexivity.
Qed.

(** [a.filter((_, i) => i !== index)] drops at most one element. *)
Lemma filter_from_drop_one {A} index i (a : list A) :
  (length a <= S (length (filter_from (fun _ j => negb (j =? index)%nat)
                            i a)))%nat.
Proof.
  revert i. induction a as [|x a IH]; intros i; simpl; [lia|].
  destruct (Nat.eqb_spec i index) as [->|_]; simpl.
  - rewrite filter_from_past by lia. lia.
  - specialize (IH (S i)). lia.
Qed.

Lemma non_whitespace_trim (s : jsstring) :
  truthy (trim s) = non_whitespace s.
Proof.
  unfold non_whitespace. apply eq_true_iff_eq.
  rewrite truthy_true, negb_true_iff, trim_nil, not_true_iff_false.
  reflexivity.
Qed.

Lemma existsb_ext' {A} (p q : A -> bool) (l : list A) :
  (forall x, p x = q x) -> existsb p l = existsb q l.
Proof.
  intros H. induction l as [|x l IH]; simpl; [reflexivity|].
  rewrite H, IH. reflexivity.
Qed.

(** The value [validateForm] returns is the conjunction of the checks. *)
Lemma lesson_validateForm_returns (fd : LessonFormData) :
  (validateForm fd).2
  = title_check fd && subject_check fd && description_check fd
    && duration_check fd && objectives_check fd && category_check fd.
Proof.
  unfold validateForm, title_check, subject_check, description_check,
    duration_check, objectives_check, category_check.
  destruct fd as [t sj d du ob di ca pr ma].
  cbn [fst snd title subject description duration objectives category].
  cbv zeta.
  rewrite ?no_keys_if, lesson_validateTextOnly_truthy.
  rewrite (proj2 (no_keys_empty (∅ : FormErrors)) eq_refl).
  rewrite Array_filter_value, filter_none.
  rewrite (existsb_ext' _ _ ob non_whitespace_trim).
  rewrite Nat.ltb_antisym, Z.gtb_ltb, !Z.ltb_antisym.
  pose proof (truthy_trim t) as Ht.
  pose proof (test_plus_class_trim
                [CRange (chr "a") (chr "z"); CRange (chr "A") (chr "Z");
                 CSpace; CChar (chr "."); CChar (chr ",");
                 CChar (chr "'"); CChar (chr "-")] t) as Htrim.
  fold textOnlyRegex in Htrim. rewrite <- truthy_true in Htrim.
  destruct (truthy (trim t)).
  - rewrite Htrim, Ht by (simpl; auto). btauto.
  - btauto.
Qed.

(** C2: the lesson's [validateForm] returns [true] exactly when the
    trimmed title is non-empty and matches the text-only pattern, the
    trimmed subject is non-empty, the trimmed description is non-empty
    and the description is at least 20 long, the duration is between 15
    and 180 inclusive, some objective is not made of white space only,
    and the trimmed category is non-empty. *)
Theorem lesson_validateForm_checks (fd : LessonFormData) :
  (validateForm fd).2 = true <->
  (trim (title fd) <> [] /\ test textOnlyRegex (trim (title fd)) = true) /\
  trim (subject fd) <> [] /\
  (trim (description fd) <> [] /\ (20 <= length (description fd))%nat) /\
  (15 <= duration fd <= 180) /\
  (exists obj, In obj (objectives fd) /\ non_whitespace obj = true) /\
  trim (category fd) <> [].
Proof.
  rewrite lesson_validateForm_returns.
  unfold title_check, subject_check, description_check, duration_check,
    objectives_check, category_check.
  rewrite !andb_true_iff, !truthy_true, existsb_exists,
    Nat.leb_le, !Z.leb_le.
  tauto.
Qed.

(** *** The two shapes of a run of [handleSubmit] *)

Lemma lesson_handleSubmit_invalid env fd :
  (validateForm fd).2 = false ->
  handleSubmit env fd
  = ([PreventDefault; SetErrors (validateForm fd).1], Normal).
Proof.
  unfold handleSubmit. destruct (validateForm fd) as [e ok]. simpl.
  intros ->. reflexivity.
Qed.

Lemma lesson_handleSubmit_valid env fd :
  (validateForm fd).2 = true ->
  handleSubmit env fd = (valid_trace env fd, Normal).
Proof.
  intros Hv.
  assert (He : (validateForm fd).1 = ∅).
  { apply no_keys_empty. exact Hv. }
  unfold handleSubmit, valid_trace.
  destruct (validateForm fd) as [e ok]. simpl in *. subst.
  destruct (onSave_throws env (cleanedData fd)), (onClose_throws env);
    reflexivity.
Qed.

(** C8: a lesson is not written to any store.  For a form that passes
    validation [handleSubmit] writes nothing to the browser storage and
    calls [onSave] once, with the form data in which the objectives and
    the materials made of white space only are left out; when [onSave]
    returns, the form is then reset to its initial values and the modal
    is closed. *)
Theorem lesson_handed_to_onSave env fd (s : State) :
  (validateForm fd).2 = true ->
  onSave_throws env (cleanedData fd) = false ->
  (handleSubmit env fd).1
    = [PreventDefault; SetErrors ∅; SetIsSubmitting true; Await 1500;
       OnSave (cleanedData fd); SetFormData initialFormData; OnClose]
      ++ (if onClose_throws env
          then [ConsoleError (js "Error creating lesson:")] else [])
      ++ [SetIsSubmitting false] /\
  formData (run_trace s (handleSubmit env fd).1) = initialFormData /\
  (forall env',
     List.filter is_storage_write (handleSubmit env' fd).1 = [] /\
     List.filter is_onSave (handleSubmit env' fd).1
       = [OnSave (cleanedData fd)]) /\
  cleanedData fd
    = mkLesson (title fd) (subject fd) (description fd) (duration fd)
        (List.filter non_whitespace (objectives fd))
        (difficulty fd) (category fd) (prerequisites fd)
        (List.filter non_whitespace (materials fd)).
Proof.
  intros Hv Hsave.
  rewrite (lesson_handleSubmit_valid env fd Hv). unfold valid_trace.
  rewrite Hsave. cbn [fst].
  split; [reflexivity|].
  split; [destruct (onClose_throws env); reflexivity|].
  split.
  - intros env'. rewrite (lesson_handleSubmit_valid env' fd Hv).
    unfold valid_trace.
    destruct (onSave_throws env' (cleanedData fd)), (onClose_throws env');
      split; reflexivity.
  - unfold cleanedData, with_materials, with_objectives.
    cbn [title subject description duration objectives difficulty
         category prerequisites materials].
    rewrite !Array_filter_value.
    rewrite !(filter_ext (fun x => truthy (trim x)) non_whitespace)
      by (intros; apply non_whitespace_trim).
    reflexivity.
Qed.

Lemma lesson_handed_to_onSave_witness :
  List.filter is_onSave (handleSubmit Samples.parent Samples.lesson).1
  = [OnSave
       (mkLesson (js "Rivers and Lakes") (js "Water Conservation")
          (js "How fresh water moves through a region.") 45
          [js "Name the parts of a watershed"]
          (js "Beginner") (js "Theory") [] [js "Map"])].
Proof.
  destruct (lesson_handed_to_onSave Samples.parent Samples.lesson
              (mkState Samples.lesson ∅ false false))
    as (_ & _ & Hall & Hclean).
  - vm_compute. reflexivity.
  - reflexivity.
  - destruct (Hall Samples.parent) as [_ Hsave].
    rewrite Hsave, Hclean. vm_compute. reflexivity.
Defined.

(** *** The lists of the form are never empty *)

Lemma Array_assign_length {A} (a a' : list A) index value :
  Array_assign a index value = Some a' ->
  (length a <= length a')%nat /\
  ((index < length a)%nat -> length a' = length a).
Proof.
  unfold Array_assign.
  destruct (Nat.ltb_spec index (length a)) as [Hlt|Hge].
  - intros [= <-]. rewrite length_insert. auto.
  - destruct (Nat.eqb_spec index (length a)); [|discriminate].
    intros [= <-]. rewrite length_app. simpl. lia.
Qed.

Lemma Array_assign_inside {A} (a : list A) index value :
  (index < length a)%nat ->
  Array_assign a index value = Some (<[index := value]> a).
Proof.
  intros Hlt. unfold Array_assign.
  destruct (Nat.ltb_spec index (length a)); [reflexivity|lia].
Qed.

Lemma remove_keeps_one {A} index (a : list A) :
  (1 < length a)%nat ->
  (1 <= length (Array_filter (fun _ i => negb (i =? index)%nat) a))%nat.
Proof.
  intros Hlen. pose proof (filter_from_drop_one index 0 a) as H.
  unfold Array_filter. lia.
Qed.

Lemma handleChange_lists snapshot n value prev :
  objectives (formData (handleChange snapshot n value prev))
    = objectives (formData prev) /\
  materials (formData (handleChange snapshot n value prev))
    = materials (formData prev).
Proof.
  unfold handleChange.
  destruct (has_error (errors snapshot) (FieldName_string n));
    destruct n;
    try destruct (truthy_opt (validateTextOnly value (js "Title")));
    split; reflexivity.
Qed.

Ltac in_trace He :=
  repeat (apply elem_of_cons in He as [He|He];
          [first [discriminate He | injection He as <-; reflexivity]|]);
  apply elem_of_nil in He; destruct He.

(** The only form data a submission or a close installs is the initial
    one. *)
Lemma handleSubmit_sets_initial env fd e f :
  e ∈ (handleSubmit env fd).1 -> e = SetFormData f -> f = initialFormData.
Proof.
  intros He ->. destruct ((validateForm fd).2) eqn:Hv.
  - rewrite (lesson_handleSubmit_valid env fd Hv) in He. unfold valid_trace in He.
    destruct (onSave_throws env (cleanedData fd)), (onClose_throws env);
      simpl in He; in_trace He.
  - rewrite (lesson_handleSubmit_invalid env fd Hv) in He. simpl in He.
    in_trace He.
Qed.

Lemma handleClose_sets_initial env e f :
  e ∈ (handleClose env).1 -> e = SetFormData f -> f = initialFormData.
Proof.
  intros He ->. unfold handleClose in He.
  destruct (onClose_throws env); simpl in He; in_trace He.
Qed.

Lemma apply_effect_lists (prev : State) e :
  (forall f, e = SetFormData f -> f = initialFormData) ->
  lists_non_empty prev -> lists_non_empty (apply_effect prev e).
Proof.
  intros He Hprev. destruct e; try exact Hprev.
  rewrite (He f eq_refl). split; simpl; lia.
Qed.

Lemma handle_lists snapshot ev prev next :
  lists_non_empty snapshot -> lists_non_empty prev ->
  handle snapshot ev prev = Some next -> lists_non_empty next.
Proof.
  intros [Hso Hsm] [Hpo Hpm] Hev. unfold lists_non_empty.
  destruct ev as [n v|i v| |i|i v| |i|env i|env i]; cbn [handle] in Hev.
  - injection Hev as <-.
    destruct (handleChange_lists snapshot n v prev) as [-> ->]. auto.
  - unfold handleObjectiveChange in Hev.
    destruct (Array_assign _ i v) as [a|] eqn:Ha; [|discriminate].
    apply Array_assign_length in Ha as [Ha _].
    simpl in Hev. injection Hev as <-.
    destruct (has_error (errors snapshot) "objectives"); simpl;
      split; solve [lia | assumption].
  - injection Hev as <-. simpl. rewrite length_app. simpl. split; [lia|auto].
  - injection Hev as <-. unfold removeObjective.
    destruct (Nat.ltb_spec 1 (length (objectives (formData snapshot))));
      [|auto].
    simpl. split; [apply remove_keeps_one; assumption|assumption].
  - unfold handleMaterialChange in Hev.
    destruct (Array_assign _ i v) as [a|] eqn:Ha; [|discriminate].
    apply Array_assign_length in Ha as [Ha _].
    simpl in Hev. injection Hev as <-. simpl. split; [assumption|lia].
  - injection Hev as <-. simpl. rewrite length_app. simpl. split; [auto|lia].
  - injection Hev as <-. unfold removeMaterial.
    destruct (Nat.ltb_spec 1 (length (materials (formData snapshot))));
      [|auto].
    simpl. split; [assumption|apply remove_keeps_one; assumption].
  - destruct ((handleSubmit env (formData snapshot)).1 !! i) as [e|] eqn:He;
      cbn [mbind option_bind] in Hev; [|discriminate].
    injection Hev as <-.
    apply apply_effect_lists; [|split; assumption].
    intros f. apply (handleSubmit_sets_initial env (formData snapshot)).
    apply list_elem_of_lookup. eauto.
  - destruct ((handleClose env).1 !! i) as [e|] eqn:He;
      cbn [mbind option_bind] in Hev; [|discriminate].
    injection Hev as <-.
    apply apply_effect_lists; [|split; assumption].
    intros f. apply (handleClose_sets_initial env).
    apply list_elem_of_lookup. eauto.
Qed.

Lemma reachable_lists s : reachable s -> lists_non_empty s.
Proof.
  induction 1 as [|snapshot prev ev next _ IHs _ IHp Hev].
  - split; simpl; lia.
  - exact (handle_lists snapshot ev prev next IHs IHp Hev).
Qed.

(** C9: in every state of the lesson form the objectives and the
    materials hold at least one entry.  Both start as one empty entry;
    adding appends one entry; changing an entry of the rendered list
    keeps the length; removing is refused when one entry is left. *)
Theorem lesson_lists_never_empty (s : State) :
  reachable s ->
  ((1 <= length (objectives (formData s)))%nat /\
   (1 <= length (materials (formData s)))%nat) /\
  (objectives initialFormData = [[]] /\ materials initialFormData = [[]]) /\
  (length (objectives (formData (addObjective s)))
     = S (length (objectives (formData s))) /\
   length (materials (formData (addMaterial s)))
     = S (length (materials (formData s)))) /\
  (forall index value,
     (index < length (objectives (formData s)))%nat ->
     exists next,
       handleObjectiveChange s index value s = Some next /\
       length (objectives (formData next))
         = length (objectives (formData s))) /\
  (forall index value,
     (index < length (materials (formData s)))%nat ->
     exists next,
       handleMaterialChange s index value s = Some next /\
       length (materials (formData next))
         = length (materials (formData s))) /\
  (forall index,
     length (objectives (formData s)) = 1%nat ->
     removeObjective s index s = s) /\
  (forall index,
     length (materials (formData s)) = 1%nat ->
     removeMaterial s index s = s).
Proof.
  intros Hs. split; [exact (reachable_lists s Hs)|].
  split; [split; reflexivity|].
  split; [split; simpl; rewrite length_app; simpl; lia|].
  split; [|split; [|split]].
  - intros index value Hlt. unfold handleObjectiveChange.
    rewrite (Array_assign_inside _ index value Hlt). simpl.
    eexists. split; [reflexivity|].
    destruct (has_error (errors s) "objectives"); simpl;
      apply length_insert.
  - intros index value Hlt. unfold handleMaterialChange.
    rewrite (Array_assign_inside _ index value Hlt). simpl.
    eexists. split; [reflexivity|]. simpl. apply length_insert.
  - intros index Hone. unfold removeObjective. rewrite Hone. reflexivity.
  - intros index Hone. unfold removeMaterial. rewrite Hone. reflexivity.
Qed.

Lemma lesson_lists_never_empty_witness :
  (1 <= length (objectives (formData
          (removeObjective (addObjective initialState) 0
             (addObjective initialState)))))%nat.
Proof.
  apply (lesson_lists_never_empty
           (removeObjective (addObjective initialState) 0
              (addObjective initialState))).
  apply (reachable_step (addObjective initialState)
           (addObjective initialState) (RemoveObjective 0));
    try reflexivity;
    apply (reachable_step initialState initialState AddObjective);
    solve [apply reachable_init | reflexivity].
Defined.

(** *** A duration that does not parse *)

Lemma validateForm_duration_error fd :
  duration_check fd = false ->
  (validateForm fd).1 !! "duration"
  = Some (Some (js "Duration must be between 15 and 180 minutes")).
Proof.
  unfold duration_check. intros Hd.
  unfold validateForm. cbn [fst]. cbv zeta.
  rewrite !lookup_step1_other by done.
  replace ((duration fd <? 15) || (duration fd >? 180)) with true.
  - apply lookup_insert_eq.
  - symmetry. rewrite Z.gtb_ltb, !Z.ltb_antisym.
    destruct (15 <=? duration fd), (duration fd <=? 180);
      simpl in *; congruence.
Qed.

(** C10: a change of the duration field to a value that [parseInt] does
    not parse stores 0, not [NaN]; [validateForm] then fails with the
    duration-range message, and [handleSubmit] does not call [onSave],
    neither then nor later as long as the stored 0 is the duration. *)
Theorem non_numeric_duration_rejected (snapshot prev : State) value env :
  parseInt value = None ->
  duration (formData (handleChange snapshot name_duration value prev)) = 0
  /\
  (validateForm
     (formData (handleChange snapshot name_duration value prev))).2 = false
  /\
  (validateForm
     (formData (handleChange snapshot name_duration value prev))).1
    !! "duration"
    = Some (Some (js "Duration must be between 15 and 180 minutes"))
  /\
  List.filter is_onSave
    (handleSubmit env
       (formData (handleChange snapshot name_duration value prev))).1 = []
  /\
  (forall later env',
     duration later = 0 ->
     List.filter is_onSave (handleSubmit env' later).1 = []).
Proof.
  intros Hnan.
  set (next := formData (handleChange snapshot name_duration value prev)).
  assert (Hd : duration next = 0).
  { unfold next, handleChange. cbn [FieldName_string].
    destruct (has_error (errors snapshot) "duration"); simpl;
      rewrite Hnan; reflexivity. }
  assert (Hc : duration_check next = false).
  { unfold duration_check. rewrite Hd. reflexivity. }
  assert (Hv : (validateForm next).2 = false).
  { rewrite lesson_validateForm_returns, Hc.
    destruct (title_check next), (subject_check next),
      (description_check next); reflexivity. }
  split; [exact Hd|]. split; [exact Hv|].
  split; [exact (validateForm_duration_error next Hc)|].
  split; [rewrite (lesson_handleSubmit_invalid env next Hv); reflexivity|].
  intros later env' Hlater.
  rewrite lesson_handleSubmit_invalid; [reflexivity|].
  rewrite lesson_validateForm_returns. unfold duration_check.
  rewrite Hlater. cbn [Z.leb Z.compare andb].
  rewrite !andb_false_r. reflexivity.
Qed.

Lemma non_numeric_duration_rejected_witness :
  duration (formData (handleChange initialState name_duration (js "abc")
                        initialState)) = 0.
Proof.
  destruct (non_numeric_duration_rejected initialState initialState
              (js "abc") Samples.parent) as [Hd _].
  - vm_compute. reflexivity.
  - exact Hd.
Defined.

End CreateLessonModalProofs.

(* ===================================================================== *)
(** ** Numbers and their numerals                                         *)
(* ===================================================================== *)

Module NumberFacts.
Import Js JsFacts.

(** *** Decimal numerals *)

Lemma digit_code_unit (c : code_unit) :
  (48 <= c)%N -> (c <= 57)%N ->
  is_whitespace c = false /\ (c =? chr "-")%N = false /\
  (c =? chr "+")%N = false /\ (c =? chr "x")%N = false /\
  (c =? chr "X")%N = false.
Proof.
  intros Hlo Hhi. unfold is_whitespace.
  change (chr "-") with 45%N. change (chr "+") with 43%N.
  change (chr "x") with 120%N. change (chr "X") with 88%N.
  rewrite !orb_false_iff.
  repeat split;
    first [ apply N.eqb_neq; lia
          | apply andb_false_iff; left; apply N.leb_gt; lia
          | apply andb_false_iff; right; apply N.leb_gt; lia ].
Qed.

Lemma numeral_digits (d : Decimal.uint) :
  Forall (fun c => (48 <= c)%N /\ (c <= 57)%N)
    (js (NilEmpty.string_of_uint d)).
Proof.
  induction d; cbn [NilEmpty.string_of_uint];
    [constructor|constructor; [vm_compute; split; discriminate|exact IHd]..].
Qed.

Ltac digit_here :=
  match goal with
  | |- context [digit_value 10 ?c] =>
      let v := eval vm_compute in (digit_value 10 c) in
      change (digit_value 10 c) with v
  end;
  cbv iota beta; cbn [default id Z.mul Z.add Pos.mul Pos.add].

Lemma parse_digits_acc (d : Decimal.uint) (a : positive) :
  parse_digits 10 (Some (Z.pos a)) (js (NilEmpty.string_of_uint d))
  = Some (Z.pos (Pos.of_uint_acc d a)).
Proof.
  revert a. induction d; intros a;
    cbn [NilEmpty.string_of_uint Pos.of_uint_acc]; [reflexivity|..];
    change (js (String ?c ?s)) with (N_of_ascii c :: js s);
    cbn [parse_digits]; digit_here;
    rewrite <- IHd; do 2 f_equal; lia.
Qed.

Lemma parse_digits_zero (d : Decimal.uint) :
  parse_digits 10 (Some 0) (js (NilEmpty.string_of_uint d))
  = Some (Z.of_N (Pos.of_uint d)).
Proof.
  induction d; cbn [NilEmpty.string_of_uint Pos.of_uint]; [reflexivity|..];
    change (js (String ?c ?s)) with (N_of_ascii c :: js s);
    cbn [parse_digits]; digit_here;
    first [ exact IHd | apply parse_digits_acc ].
Qed.

Lemma parse_digits_numeral (d : Decimal.uint) :
  d <> Decimal.Nil ->
  parse_digits 10 None (js (NilEmpty.string_of_uint d))
  = Some (Z.of_N (Pos.of_uint d)).
Proof.
  intros Hd. destruct d; [congruence|..];
    cbn [NilEmpty.string_of_uint Pos.of_uint];
    change (js (String ?c ?s)) with (N_of_ascii c :: js s);
    cbn [parse_digits]; digit_here;
    first [ apply parse_digits_zero | apply parse_digits_acc ].
Qed.

Lemma parseInt_decimal (s : jsstring) :
  s <> [] -> Forall (fun c => (48 <= c)%N /\ (c <= 57)%N) s ->
  parseInt s = (fun n => 1 * n) <$> parse_digits 10 None s /\
  parseInt (chr "-" :: s) = (fun n => -1 * n) <$> parse_digits 10 None s.
Proof.
  intros Hs Hd. destruct s as [|c0 s]; [congruence|].
  apply Forall_cons in Hd as [[H0 H0'] Hd].
  destruct (digit_code_unit c0 H0 H0') as (Hw & Hm & Hp & _).
  change (chr "-") with 45%N in *. change (chr "+") with 43%N in *.
  destruct s as [|cx s'].
  - unfold parseInt. cbn [trimStart].
    change (is_whitespace 45%N) with false. cbv iota.
    rewrite Hw.
    change (chr "-") with 45%N. change (chr "+") with 43%N.
    rewrite Hm, Hp. change (45 =? 45)%N with true. cbv iota.
    split; reflexivity.
  - apply Forall_cons in Hd as [[H1 H1'] _].
    destruct (digit_code_unit cx H1 H1') as (_ & _ & _ & Hx & HX).
    unfold parseInt. cbn [trimStart].
    change (is_whitespace 45%N) with false. cbv iota.
    rewrite Hw.
    change (chr "-") with 45%N. change (chr "+") with 43%N.
    rewrite Hm, Hp. change (45 =? 45)%N with true. cbv iota.
    rewrite Hx, HX, andb_false_r.
    split; reflexivity.
Qed.

Lemma parseInt_Number_toString (n : Z) : parseInt (Number_toString n) = Some n.
Proof.
  unfold Number_toString. destruct n as [|p|p]; [reflexivity|..];
    cbn [Z.to_int NilZero.string_of_int];
    (assert (Hs : NilZero.string_of_uint (Pos.to_uint p)
                  = NilEmpty.string_of_uint (Pos.to_uint p));
     [pose proof (DecimalPos.Unsigned.to_uint_nonnil p);
      destruct (Pos.to_uint p); [congruence|reflexivity..]|]);
    rewrite Hs;
    (assert (Hne : js (NilEmpty.string_of_uint (Pos.to_uint p)) <> []);
     [pose proof (DecimalPos.Unsigned.to_uint_nonnil p);
      destruct (Pos.to_uint p); [congruence|discriminate..]|]);
    destruct (parseInt_decimal _ Hne (numeral_digits (Pos.to_uint p)))
      as [Hpos Hneg];
    rewrite (parse_digits_numeral _
               (DecimalPos.Unsigned.to_uint_nonnil p)),
      DecimalPos.Unsigned.of_to in Hpos, Hneg.
  - exact Hpos.
  - exact Hneg.
Qed.











End NumberFacts.

(* ===================================================================== *)
(** ** The student detail modal                                           *)
(* ===================================================================== *)

Module StudentDetailModalProofs.
Import Js JsFacts NumberFacts StudentDetailModal.





(** The grouping of en-US, en-IN and es-ES. *)
Example grouping_examples :
  Number_toLocaleString Samples.en_US 1234567 = js "1,234,567" /\
  Number_toLocaleString Samples.en_IN 1234567 = js "12,34,567" /\
  Number_toLocaleString Samples.es_ES 1250 = js "1250" /\
  Number_toLocaleString Samples.es_ES 12500 = js "12.500" /\
  Number_toLocaleString Samples.en_US (-1250) = js "-1,250" /\
  Number_toLocaleString Samples.en_US 999 = js "999".
Proof. vm_compute. repeat split. Qed.

End StudentDetailModalProofs.

(* ===================================================================== *)
(** ** The sign-up form: validators, change handlers, ordering            *)
(* ===================================================================== *)

Module SignUpBehaviour.
Import Js React JsFacts ReactFacts SignUp SignUpProofs.

Lemma text_class (c : code_unit) :
  class_matches false
    [CRange (chr "a") (chr "z"); CRange (chr "A") (chr "Z"); CSpace;
     CChar (chr "."); CChar (chr ","); CChar (chr "'"); CChar (chr "-")] c
  = text_char c.
Proof.
  unfold class_matches, text_char. cbn [existsb item_matches xorb].
  change (chr "a") with 97%N. change (chr "z") with 122%N.
  change (chr "A") with 65%N. change (chr "Z") with 90%N.
  change (chr ".") with 46%N. change (chr ",") with 44%N.
  change (chr "'") with 39%N. change (chr "-") with 45%N.
  rewrite orb_false_r, !orb_assoc. reflexivity.
Qed.

Lemma forallb_pointwise {A} (p q : A -> bool) (l : list A) :
  (forall x, p x = q x) -> forallb p l = forallb q l.
Proof.
  intros H. induction l as [|x l IH]; simpl; [reflexivity|].
  rewrite H, IH. reflexivity.
Qed.

Lemma textOnlyRegex_test (s : jsstring) :
  test textOnlyRegex s = truthy s && forallb text_char s.
Proof.
  unfold textOnlyRegex. rewrite test_plus_class. f_equal.
  apply forallb_pointwise. intros c. apply text_class.
Qed.

Lemma signUp_validateTextOnly_value (value fieldName : jsstring) :
  validateTextOnly value fieldName
  = if forallb text_char value then None
    else Some (pattern_message fieldName).
Proof.
  unfold validateTextOnly, pattern_message. rewrite textOnlyRegex_test.
  destruct value as [|c value]; [reflexivity|].
  cbn [truthy andb]. destruct (forallb text_char (c :: value)); reflexivity.
Qed.

Lemma pattern_message_truthy (fieldName : jsstring) :
  truthy (pattern_message fieldName) = true.
Proof. apply truthy_app_r. reflexivity. Qed.

(** X1: [validateTextOnly] returns [undefined] exactly for the values all
    of whose code units are letters, white space or one of [. , ' -] --
    the empty string among them -- and the pattern message of the field
    for every other value; the message is never empty. *)
Theorem validateTextOnly_accepts (value fieldName : jsstring) :
  validateTextOnly value fieldName
    = (if forallb text_char value then None
       else Some (pattern_message fieldName)) /\
  validateTextOnly [] fieldName = None /\
  truthy (pattern_message fieldName) = true.
Proof.
  split; [apply signUp_validateTextOnly_value|].
  split; [reflexivity|apply pattern_message_truthy].
Qed.

Lemma email_class_char (c : code_unit) :
  class_matches true [CSpace; CChar (chr "@")] c = email_char c.
Proof.
  unfold class_matches, email_char. cbn [existsb item_matches].
  change (chr "@") with 64%N.
  destruct (is_whitespace c), (c =? 64)%N; reflexivity.
Qed.

Lemma email_part_chars (s : jsstring) :
  lang (Plus (Class true [CSpace; CChar (chr "@")])) s <->
  s <> [] /\ forallb email_char s = true.
Proof.
  rewrite lang_plus_class.
  rewrite (forallb_pointwise _ email_char s email_class_char).
  reflexivity.
Qed.

Lemma email_chars_no_at (l : jsstring) :
  forallb email_char l = true ->
  List.filter (fun c => (c =? 64)%N) l = [] /\
  forallb (fun c => negb (is_whitespace c)) l = true.
Proof.
  induction l as [|c l IH]; simpl; [auto|].
  intros H. apply andb_true_iff in H as [Hc Hl].
  unfold email_char in Hc. apply andb_true_iff in Hc as [Hw Ha].
  apply negb_true_iff in Hw, Ha. rewrite Ha, Hw. simpl. apply IH, Hl.
Qed.

(** X2: [emailRegex] accepts exactly the strings made of a non-empty
    local part, an at sign, a non-empty domain, a dot and a non-empty
    last part, where no part holds white space or an at sign (the domain
    and the last part are split at any one of the dots, so dots may occur
    everywhere else).  An accepted email therefore has exactly one at
    sign, no white space, and is its own trimmed form. *)
Theorem emailRegex_shape (s : jsstring) :
  (test emailRegex s = true <->
   exists loc dom tld,
     s = loc ++ 64%N :: dom ++ 46%N :: tld /\
     loc <> [] /\ dom <> [] /\ tld <> [] /\
     forallb email_char loc = true /\ forallb email_char dom = true /\
     forallb email_char tld = true) /\
  (test emailRegex s = true ->
   length (List.filter (fun c => (c =? 64)%N) s) = 1%nat /\
   forallb (fun c => negb (is_whitespace c)) s = true /\
   trim s = s).
Proof.
  assert (Hshape : test emailRegex s = true <->
   exists loc dom tld,
     s = loc ++ 64%N :: dom ++ 46%N :: tld /\
     loc <> [] /\ dom <> [] /\ tld <> [] /\
     forallb email_char loc = true /\ forallb email_char dom = true /\
     forallb email_char tld = true).
  { rewrite emailRegex_accepts. split.
    - intros (loc & dom & tld & -> & Hl & Hd & Ht).
      apply email_part_chars in Hl as [? ?].
      apply email_part_chars in Hd as [? ?].
      apply email_part_chars in Ht as [? ?].
      exists loc, dom, tld. auto 10.
    - intros (loc & dom & tld & -> & ? & ? & ? & ? & ? & ?).
      exists loc, dom, tld.
      split; [reflexivity|]. rewrite !email_part_chars. auto. }
  split; [exact Hshape|]. intros Hm.
  pose proof (emailRegex_no_whitespace s Hm) as Hws.
  apply Hshape in Hm as (loc & dom & tld & -> & _ & _ & _ & Hl & Hd & Ht).
  apply email_chars_no_at in Hl as [Hl1 Hl2].
  apply email_chars_no_at in Hd as [Hd1 Hd2].
  apply email_chars_no_at in Ht as [Ht1 Ht2].
  split; [|split].
  - rewrite List.filter_app. cbn [List.filter]. rewrite List.filter_app.
    cbn [List.filter]. rewrite Hl1, Hd1, Ht1. reflexivity.
  - apply forallb_forall. intros c Hc. apply list_elem_of_In in Hc.
    rewrite Forall_forall in Hws. rewrite (Hws c Hc). reflexivity.
  - apply trim_id. exact Hws.
Qed.

(** *** Messages *)

Lemma message_at_empty k : message_at ∅ k = None.
Proof. unfold message_at. rewrite lookup_empty. reflexivity. Qed.

Lemma message_at_insert k k' v (o : FormErrors) :
  message_at (<[k := v]> o) k'
  = if bool_decide (k = k') then shown v else message_at o k'.
Proof.
  unfold message_at. case_bool_decide as Hk.
  - subst. rewrite lookup_insert_eq. destruct v; reflexivity.
  - rewrite lookup_insert_ne by exact Hk. reflexivity.
Qed.

Lemma message_step1 k k' (c : bool) v (o : FormErrors) :
  message_at (if c then <[k := v]> o else o) k'
  = if bool_decide (k = k') && c then shown v else message_at o k'.
Proof.
  destruct c; [|rewrite andb_false_r; reflexivity].
  rewrite message_at_insert, andb_true_r. reflexivity.
Qed.

Lemma message_step1_nested k k' (a c : bool) v (o : FormErrors) :
  message_at (if a then if c then <[k := v]> o else o else o) k'
  = if bool_decide (k = k') && (a && c) then shown v else message_at o k'.
Proof.
  destruct a; [apply message_step1|]. rewrite andb_false_r. reflexivity.
Qed.

Lemma message_step2 k k' (c1 c2 : bool) v1 v2 (o : FormErrors) :
  message_at (if c1 then <[k := v1]> o
              else if c2 then <[k := v2]> o else o) k'
  = if bool_decide (k = k') && c1 then shown v1
    else if bool_decide (k = k') && c2 then shown v2
    else message_at o k'.
Proof.
  destruct c1.
  - rewrite message_at_insert, andb_true_r.
    destruct (bool_decide (k = k')); [reflexivity|].
    destruct c2; reflexivity.
  - rewrite andb_false_r. apply message_step1.
Qed.

Lemma lookup_step2_other {V} k k' (c1 c2 : bool) (v1 v2 : V)
    (o : gmap string V) :
  k <> k' ->
  (if c1 then <[k := v1]> o else if c2 then <[k := v2]> o else o) !! k'
  = o !! k'.
Proof.
  intros Hk. destruct c1; [apply lookup_insert_ne; exact Hk|].
  apply lookup_step1_other. exact Hk.
Qed.

Lemma lookup_nested_other {V} k k' (a c : bool) (v : V) (o : gmap string V) :
  k <> k' ->
  (if a then if c then <[k := v]> o else o else o) !! k' = o !! k'.
Proof.
  intros Hk. destruct a; [|reflexivity]. apply lookup_step1_other. exact Hk.
Qed.

Ltac peel_lookup :=
  repeat first [ rewrite lookup_step2_other by done
               | rewrite lookup_nested_other by done
               | rewrite lookup_step1_other by done ];
  rewrite ?lookup_empty.

Ltac shown_messages :=
  repeat match goal with
         | |- context [shown (Some (js ?m))] =>
             change (shown (Some (js m))) with (Some (js m))
         end.

Ltac by_conditions :=
  repeat match goal with
         | |- context [if negb ?b then _ else _] => destruct b; cbn [negb]
         | |- context [if ?b then _ else _] => destruct b
         end;
  reflexivity.

Ltac peel_messages :=
  repeat first [ rewrite message_step2
               | rewrite message_step1_nested
               | rewrite message_step1 ];
  rewrite ?message_at_empty.

Lemma shown_validateTextOnly value fieldName :
  (if truthy_opt (validateTextOnly value fieldName)
   then shown (validateTextOnly value fieldName) else None)
  = if forallb text_char value then None
    else Some (pattern_message fieldName).
Proof.
  rewrite (signUp_validateTextOnly_value value fieldName).
  pose proof (pattern_message_truthy fieldName) as Hm.
  destruct (forallb text_char value); [reflexivity|].
  cbn [truthy_opt shown]. rewrite Hm. reflexivity.
Qed.

Lemma trim_text_chars (s : jsstring) :
  truthy (trim s) = false -> forallb text_char s = true.
Proof.
  intros Ht. assert (Hn : trim s = []) by (destruct (trim s); [reflexivity|discriminate]).
  apply trim_nil in Hn. revert Hn. rewrite !forallb_forall.
  intros H c Hc. unfold text_char. rewrite (H c Hc).
  rewrite !orb_true_r. reflexivity.
Qed.

Lemma guarded_validateTextOnly (d : bool) value fieldName
    (rest : option jsstring) :
  (if d && truthy_opt (validateTextOnly value fieldName)
   then shown (validateTextOnly value fieldName) else rest)
  = if d && negb (forallb text_char value)
    then Some (pattern_message fieldName) else rest.
Proof.
  rewrite (signUp_validateTextOnly_value value fieldName).
  pose proof (pattern_message_truthy fieldName) as Hm.
  destruct d; [|reflexivity]. cbn [andb].
  destruct (forallb text_char value); [reflexivity|].
  cbn [truthy_opt shown negb]. rewrite Hm. reflexivity.
Qed.

(** The message at a key, as a decision list in the order of the source
    read backwards. *)
Lemma signUp_message_at (fd : FormData) (k : string) :
  message_at (validateForm fd).1 k
  = if bool_decide ("school" = k)
       && negb (forallb text_char (default [] (school fd)))
    then Some (pattern_message (js "School name"))
    else if bool_decide ("grade" = k)
            && (bool_decide (role fd = student)
                && negb (truthy_opt (grade fd)))
    then Some (js "Grade is required for students")
    else if bool_decide ("confirmPassword" = k)
            && negb (truthy (confirmPassword fd))
    then Some (js "Please confirm your password")
    else if bool_decide ("confirmPassword" = k)
            && negb (bool_decide (password fd = confirmPassword fd))
    then Some (js "Passwords do not match")
    else if bool_decide ("password" = k) && negb (truthy (password fd))
    then Some (js "Password is required")
    else if bool_decide ("password" = k)
            && (length (password fd) <? 6)%nat
    then Some (js "Password must be at least 6 characters long")
    else if bool_decide ("email" = k) && negb (truthy (trim (email fd)))
    then Some (js "Email is required")
    else if bool_decide ("email" = k) && negb (test emailRegex (email fd))
    then Some (js "Please enter a valid email address")
    else if bool_decide ("name" = k) && negb (truthy (trim (name fd)))
    then Some (js "Name is required")
    else if bool_decide ("name" = k)
            && negb (forallb text_char (name fd))
    then Some (pattern_message (js "Name"))
    else None.
Proof.
  unfold validateForm.
  destruct fd as [n e p c r g s st];
  cbn [fst snd name email password confirmPassword role grade school state];
  cbv zeta.
  destruct s as [[|s0 s]|]; cbn [truthy default id];
    try change (forallb text_char []) with true;
    cbn [negb]; rewrite ?andb_false_r;
    peel_messages; repeat rewrite guarded_validateTextOnly; shown_messages;
    reflexivity.
Qed.

(** X3: the message [validateForm] leaves at each key, with the
    priorities of the source: a blank name or email is reported as
    required before its pattern is looked at, an empty password before
    its length, an empty confirmation before the comparison; the grade
    message exists only for a student without a grade, the school
    message only for a school with a character outside the text class;
    no other key ever holds a message. *)
Theorem signUp_messages (fd : FormData) :
  message_at (validateForm fd).1 "name"
    = (if negb (truthy (trim (name fd))) then Some (js "Name is required")
       else if forallb text_char (name fd) then None
       else Some (pattern_message (js "Name"))) /\
  message_at (validateForm fd).1 "email"
    = (if negb (truthy (trim (email fd))) then Some (js "Email is required")
       else if test emailRegex (email fd) then None
       else Some (js "Please enter a valid email address")) /\
  message_at (validateForm fd).1 "password"
    = (if negb (truthy (password fd)) then Some (js "Password is required")
       else if (length (password fd) <? 6)%nat
       then Some (js "Password must be at least 6 characters long")
       else None) /\
  message_at (validateForm fd).1 "confirmPassword"
    = (if negb (truthy (confirmPassword fd))
       then Some (js "Please confirm your password")
       else if bool_decide (password fd = confirmPassword fd) then None
       else Some (js "Passwords do not match")) /\
  message_at (validateForm fd).1 "grade"
    = (if bool_decide (role fd = student) && negb (truthy_opt (grade fd))
       then Some (js "Grade is required for students") else None) /\
  message_at (validateForm fd).1 "school"
    = (if forallb text_char (default [] (school fd)) then None
       else Some (pattern_message (js "School name"))) /\
  (forall k, k ∉ field_keys -> message_at (validateForm fd).1 k = None).
Proof.
  repeat split;
    [..|intros k Hk; unfold field_keys in Hk;
        repeat (apply not_elem_of_cons in Hk as [? Hk]);
        rewrite signUp_message_at;
        repeat match goal with
               | |- context [bool_decide (?a = k)] =>
                   rewrite (bool_decide_eq_false_2 (a = k)) by done
               end;
        reflexivity].
  all: rewrite signUp_message_at; decide_keys; cbn [andb]; by_conditions.
Qed.

(** *** The change handler *)

Lemma message_at_has_error (e : FormErrors) k :
  has_error e k = false -> message_at e k = None.
Proof.
  unfold has_error, message_at. destruct (e !! k) as [[m|]|]; simpl; auto.
  intros ->. reflexivity.
Qed.

Lemma message_at_undefined (e : FormErrors) k :
  message_at (<[k := None]> e) k = None.
Proof. unfold message_at. rewrite lookup_insert_eq. reflexivity. Qed.

Lemma message_at_validateTextOnly (e : FormErrors) k value fieldName :
  message_at (<[k := validateTextOnly value fieldName]> e) k
  = if forallb text_char value then None
    else Some (pattern_message fieldName).
Proof.
  unfold message_at. rewrite lookup_insert_eq.
  rewrite (signUp_validateTextOnly_value value fieldName).
  pose proof (pattern_message_truthy fieldName) as Hm.
  destruct (forallb text_char value); [reflexivity|]. rewrite Hm. reflexivity.
Qed.

Lemma signUp_handleChange_formData (snapshot prev : React.State FormData)
    (n : FieldName) (value : jsstring) :
  formData (handleChange snapshot n value prev)
  = set_field n value (formData prev).
Proof.
  unfold handleChange.
  destruct (has_error (errors snapshot) (FieldName_string n));
    destruct n; try reflexivity;
    destruct (truthy_opt (validateTextOnly value _)); reflexivity.
Qed.

Lemma signUp_handleChange_message (snapshot prev : React.State FormData)
    (n : FieldName) (value : jsstring) :
  message_at (errors (handleChange snapshot n value prev))
    (FieldName_string n)
  = if has_error (errors snapshot) (FieldName_string n) then None
    else match n with
         | field_name =>
             if forallb text_char value then None
             else Some (pattern_message (js "Name"))
         | field_school =>
             if forallb text_char value then None
             else Some (pattern_message (js "School name"))
         | _ => message_at (errors prev) (FieldName_string n)
         end.
Proof.
  unfold handleChange.
  destruct (has_error (errors snapshot) (FieldName_string n)) eqn:Hsnap.
  - cbn [errors update_errors]. apply message_at_undefined.
  - assert (Hfalse : forall fieldName,
              truthy_opt (validateTextOnly value fieldName) = false ->
              forallb text_char value = true).
    { intros fieldName Ht.
      pose proof (signUp_validateTextOnly_value value fieldName) as Hn.
      pose proof (pattern_message_truthy fieldName) as Hm.
      rewrite Hn in Ht. destruct (forallb text_char value); [reflexivity|].
      cbn [truthy_opt] in Ht. congruence. }
    destruct n; try reflexivity;
      (destruct (truthy_opt (validateTextOnly value _)) eqn:Ht;
       cbn [errors update_errors update_formData FieldName_string];
       [apply message_at_validateTextOnly|]);
      rewrite message_at_undefined, (Hfalse _ Ht); reflexivity.
Qed.

(** X4: [handleChange] stores the typed value in the field named by the
    control -- the name, the email, the password and its confirmation as
    they are, the grade, the school and the state as a present value --
    and leaves every other field, the role, [isSubmitting], [isSuccess]
    and the messages of other keys alone.  At the key of the field itself
    the message is removed when the rendered state showed one; otherwise
    the name and the school get the result of the real-time text check of
    the new value, and every other field keeps what it had. *)
Theorem signUp_handleChange_effect (snapshot prev : React.State FormData)
    (n : FieldName) (value : jsstring) :
  let next := handleChange snapshot n value prev in
  name (formData next)
    = match n with field_name => value | _ => name (formData prev) end /\
  email (formData next)
    = match n with field_email => value | _ => email (formData prev) end /\
  password (formData next)
    = match n with
      | field_password => value
      | _ => password (formData prev)
      end /\
  confirmPassword (formData next)
    = match n with
      | field_confirmPassword => value
      | _ => confirmPassword (formData prev)
      end /\
  role (formData next) = role (formData prev) /\
  grade (formData next)
    = match n with
      | field_grade => Some value
      | _ => grade (formData prev)
      end /\
  school (formData next)
    = match n with
      | field_school => Some value
      | _ => school (formData prev)
      end /\
  state (formData next)
    = match n with
      | field_state => Some value
      | _ => state (formData prev)
      end /\
  isSubmitting next = isSubmitting prev /\
  isSuccess next = isSuccess prev /\
  (forall k, k <> FieldName_string n ->
     errors next !! k = errors prev !! k) /\
  message_at (errors next) (FieldName_string n)
  = if has_error (errors snapshot) (FieldName_string n) then None
    else match n with
         | field_name =>
             if forallb text_char value then None
             else Some (pattern_message (js "Name"))
         | field_school =>
             if forallb text_char value then None
             else Some (pattern_message (js "School name"))
         | _ => message_at (errors prev) (FieldName_string n)
         end.
Proof.
  cbv zeta.
  rewrite !(signUp_handleChange_formData snapshot prev n value).
  repeat match goal with |- _ /\ _ => split end.
  1-8: destruct n; reflexivity.
  - unfold handleChange.
    destruct (has_error (errors snapshot) (FieldName_string n));
      destruct n; try reflexivity;
      destruct (truthy_opt (validateTextOnly value _)); reflexivity.
  - unfold handleChange.
    destruct (has_error (errors snapshot) (FieldName_string n));
      destruct n; try reflexivity;
      destruct (truthy_opt (validateTextOnly value _)); reflexivity.
  - intros k Hk. unfold handleChange.
    destruct (has_error (errors snapshot) (FieldName_string n));
      cbn [errors update_errors];
      rewrite ?lookup_insert_ne by congruence;
      destruct n; try reflexivity;
      destruct (truthy_opt (validateTextOnly value _));
      cbn [errors update_errors update_formData];
      apply lookup_insert_ne; congruence.
  - apply signUp_handleChange_message.
Qed.

Lemma text_chars_trim (s : jsstring) :
  forallb text_char s = false -> truthy (trim s) = true.
Proof.
  intros Hf. destruct (truthy (trim s)) eqn:Ht; [reflexivity|].
  apply trim_text_chars in Ht. congruence.
Qed.

(** X5: the real-time check of [handleChange] alternates.  Starting
    without a name message, a first keystroke that leaves a character
    outside the text class in the name shows the pattern message; a
    second such keystroke, handled after the re-render, removes it again
    although the name now stored is still invalid -- [validateForm]
    reports the pattern message for it. *)
Theorem realtime_message_alternates (s0 : React.State FormData)
    (v1 v2 : jsstring) :
  has_error (errors s0) "name" = false ->
  forallb text_char v1 = false ->
  forallb text_char v2 = false ->
  message_at (errors (handleChange s0 field_name v1 s0)) "name"
    = Some (pattern_message (js "Name")) /\
  message_at
    (errors (handleChange (handleChange s0 field_name v1 s0) field_name v2
               (handleChange s0 field_name v1 s0))) "name" = None /\
  name (formData
          (handleChange (handleChange s0 field_name v1 s0) field_name v2
             (handleChange s0 field_name v1 s0))) = v2 /\
  message_at
    (validateForm
       (formData
          (handleChange (handleChange s0 field_name v1 s0) field_name v2
             (handleChange s0 field_name v1 s0)))).1 "name"
    = Some (pattern_message (js "Name")).
Proof.
  intros H0 H1 H2.
  pose proof (signUp_handleChange_message s0 s0 field_name v1) as Hm1.
  cbn [FieldName_string] in Hm1. rewrite H0, H1 in Hm1.
  set (s1 := handleChange s0 field_name v1 s0) in *.
  assert (He1 : has_error (errors s1) "name" = true).
  { unfold message_at in Hm1. unfold has_error.
    destruct (errors s1 !! "name") as [[m|]|]; try discriminate.
    cbn [truthy_opt]. destruct (truthy m); [reflexivity|discriminate]. }
  pose proof (signUp_handleChange_formData s1 s1 field_name v2) as Hf2.
  pose proof (signUp_handleChange_message s1 s1 field_name v2) as Hm2.
  cbn [FieldName_string] in Hm2. rewrite He1 in Hm2.
  set (s2 := handleChange s1 field_name v2 s1) in *.
  repeat split; try assumption.
  - rewrite Hf2. reflexivity.
  - rewrite signUp_message_at. decide_keys. cbn [andb].
    rewrite Hf2. cbn [set_field name].
    rewrite (text_chars_trim _ H2), H2. reflexivity.
Qed.

Lemma realtime_message_alternates_witness :
  message_at
    (errors (handleChange
               (handleChange Samples.idle field_name (js "R2") Samples.idle)
               field_name (js "R2D2")
               (handleChange Samples.idle field_name (js "R2") Samples.idle)))
    "name" = None.
Proof.
  destruct (realtime_message_alternates Samples.idle (js "R2") (js "R2D2"))
    as (_ & H & _).
  - vm_compute. reflexivity.
  - vm_compute. reflexivity.
  - vm_compute. reflexivity.
  - exact H.
Defined.

(** X6: the role buttons change the role only.  A form is valid as a
    student exactly when it is valid as a teacher and a grade is present;
    the grade that was selected survives a switch to teacher, the
    messages are untouched, and pressing the button of the current role,
    or a button twice, changes nothing more. *)
Theorem selectRole_validation (s : React.State FormData) :
  (validateForm (formData (selectRole student s))).2
    = (validateForm (formData (selectRole teacher s))).2
      && present (grade (formData s)) /\
  (forall r, grade (formData (selectRole r s)) = grade (formData s)) /\
  (forall r, errors (selectRole r s) = errors s) /\
  (forall r, role (formData s) = r -> selectRole r s = s) /\
  (forall r r', selectRole r (selectRole r' s) = selectRole r s).
Proof.
  repeat split.
  - rewrite !signUp_validateForm_returns.
    unfold name_check, email_check, password_check, confirmPassword_check,
      grade_check, school_check, selectRole, update_formData.
    cbn [formData name email password confirmPassword role grade school].
    rewrite andb_true_r.
    generalize (truthy (trim (name (formData s)))
                && test textOnlyRegex (name (formData s))).
    generalize (truthy (trim (email (formData s)))
                && test emailRegex (email (formData s))).
    generalize (truthy (password (formData s))
                && (6 <=? length (password (formData s)))%nat).
    generalize (truthy (confirmPassword (formData s))
                && bool_decide (confirmPassword (formData s)
                                = password (formData s))).
    generalize (if present (school (formData s))
                then test textOnlyRegex (default [] (school (formData s)))
                else true).
    generalize (present (grade (formData s))).
    intros a b c d e f. btauto.
  - intros r <-. destruct s as [[] ? ? ?]. reflexivity.
Qed.

Lemma userData_no_password env fd :
  JSON_get "password" (JSON_stringify (userData env fd)) = None /\
  JSON_get "confirmPassword" (JSON_stringify (userData env fd)) = None.
Proof.
  destruct fd as [n e p c r g s st]. unfold userData.
  cbn [role grade school state name email].
  destruct r, g as [g|], s as [[|? ?]|], st as [[|? ?]|];
    split; reflexivity.
Qed.

(** X7: whatever [handleSubmit] writes to the browser storage has
    passed every check of [validateForm]: the write is the JSON text of
    [userData] under 'currentUser', all field checks hold of the form,
    the text has no password and no confirmPassword member; and the write
    comes after the two-second wait and before success is set and the
    navigation is scheduled, none of which precede it. *)
Theorem stored_record_passed_validation env fd key record :
  In (LocalStorageSetItem key record) (handleSubmit env fd).1 ->
  key = js "currentUser" /\
  record = JSON_stringify (userData env fd) /\
  (validateForm fd).2 = true /\
  name_check fd = true /\ email_check fd = true /\
  password_check fd = true /\ confirmPassword_check fd = true /\
  grade_check fd = true /\ school_check fd = true /\
  JSON_get "password" record = None /\
  JSON_get "confirmPassword" record = None /\
  exists before after,
    (handleSubmit env fd).1
      = before ++ LocalStorageSetItem key record :: after /\
    In (Await 2000) before /\
    List.filter is_storage_write before = [] /\
    List.filter is_setIsSuccess before = [] /\
    List.filter is_navigation before = [] /\
    after = [SetIsSuccess true;
             SetTimeout (Navigate (redirect fd)) 2000;
             SetIsSubmitting false].
Proof.
  intros Hin.
  destruct (validateForm fd).2 eqn:Hv.
  2:{ rewrite (signUp_handleSubmit_invalid env fd Hv) in Hin.
      cbn [fst] in Hin. destruct Hin as [H|[H|[]]]; discriminate. }
  rewrite (signUp_handleSubmit_valid env fd Hv) in Hin |- *.
  destruct (setItem_throws env); cbn [fst] in Hin |- *.
  { unfold failure_trace in Hin.
    repeat (destruct Hin as [Hin|Hin]; [discriminate|]). destruct Hin. }
  unfold success_trace in Hin.
  repeat (destruct Hin as [Hin|Hin]; [try discriminate|]);
    [|destruct Hin].
  injection Hin as <- <-.
  pose proof Hv as Hc. rewrite signUp_validateForm_returns in Hc.
  rewrite !andb_true_iff in Hc.
  destruct Hc as (((((? & ?) & ?) & ?) & ?) & ?).
  destruct (userData_no_password env fd) as (Hp & Hcp).
  repeat (split; [assumption || reflexivity|]).
  eexists [PreventDefault; SetErrors ∅; SetIsSubmitting true; SetErrors ∅;
           Await 2000; ConsoleLog (js "Registration successful:")], _.
  split; [reflexivity|].
  split; [cbn; tauto|]. repeat split.
Qed.

Lemma stored_record_passed_validation_witness :
  grade_check Samples.asha = true /\
  JSON_get "password"
    (JSON_stringify (userData Samples.browser Samples.asha)) = None.
Proof.
  destruct (stored_record_passed_validation Samples.browser Samples.asha
              (js "currentUser")
              (JSON_stringify (userData Samples.browser Samples.asha)))
    as (_ & _ & _ & _ & _ & _ & _ & Hg & _ & Hp & _).
  - vm_compute. tauto.
  - split; [exact Hg | exact Hp].
Defined.

Lemma emailRegex_shape_witness :
  length (List.filter (fun c => (c =? 64)%N) (js "asha@school.in")) = 1%nat /\
  trim (js "asha@school.in") = js "asha@school.in".
Proof.
  destruct (emailRegex_shape (js "asha@school.in")) as (_ & H).
  destruct H as (Hone & _ & Htrim); [vm_compute; reflexivity|].
  split; [exact Hone | exact Htrim].
Defined.

Lemma signUp_messages_witness :
  message_at (validateForm Samples.no_grade).1 "state" = None.
Proof.
  destruct (signUp_messages Samples.no_grade)
    as (_ & _ & _ & _ & _ & _ & H).
  apply H. vm_compute. intros Hin.
  repeat (apply elem_of_cons in Hin as [Hin|Hin]; [discriminate|]).
  inversion Hin.
Defined.

Lemma signUp_handleChange_effect_witness :
  email (formData (handleChange Samples.idle field_email (js "asha@home.in")
                     Samples.idle)) = js "asha@home.in" /\
  state (formData (handleChange Samples.idle field_state (js "Kerala")
                     Samples.idle)) = Some (js "Kerala") /\
  errors (handleChange Samples.idle field_name (js "R2") Samples.idle)
    !! "email" = None /\
  message_at
    (errors (handleChange Samples.idle field_name (js "R2") Samples.idle))
    "name"
    = Some (js "Name can only contain letters, spaces, and basic punctuation").
Proof.
  pose proof (signUp_handleChange_effect Samples.idle Samples.idle
                field_email (js "asha@home.in")) as He.
  pose proof (signUp_handleChange_effect Samples.idle Samples.idle
                field_state (js "Kerala")) as Hs.
  pose proof (signUp_handleChange_effect Samples.idle Samples.idle
                field_name (js "R2")) as Hn.
  cbv zeta in He, Hs, Hn.
  destruct He as (_ & He & _).
  destruct Hs as (_ & _ & _ & _ & _ & _ & _ & Hs & _).
  destruct Hn as (_ & _ & _ & _ & _ & _ & _ & _ & _ & _ & Hk & Hm).
  split; [exact He|]. split; [exact Hs|]. split.
  - rewrite (Hk "email"); [reflexivity|discriminate].
  - exact Hm.
Defined.

Lemma selectRole_validation_witness :
  selectRole student Samples.idle = Samples.idle.
Proof.
  destruct (selectRole_validation Samples.idle) as (_ & _ & _ & H & _).
  apply H. reflexivity.
Defined.

End SignUpBehaviour.

(* ===================================================================== *)
(** ** More of the lesson form                                            *)
(* ===================================================================== *)

Module CreateLessonModalBehaviour.
Import Js React JsFacts ReactFacts CreateLessonModal CreateLessonModalProofs.
Import NumberFacts SignUpBehaviour.

Lemma lesson_textOnlyRegex_test (s : jsstring) :
  test textOnlyRegex s = truthy s && forallb SignUp.text_char s.
Proof. exact (textOnlyRegex_test s). Qed.

Lemma lesson_validateTextOnly_value (value fieldName : jsstring) :
  validateTextOnly value fieldName
  = if forallb SignUp.text_char value then None
    else Some (SignUp.pattern_message fieldName).
Proof.
  unfold validateTextOnly, SignUp.pattern_message.
  rewrite lesson_textOnlyRegex_test.
  destruct value as [|c value]; [reflexivity|].
  cbn [truthy andb].
  destruct (forallb SignUp.text_char (c :: value)); reflexivity.
Qed.

Lemma lesson_guarded_validateTextOnly (d : bool) value fieldName
    (rest : option jsstring) :
  (if d && truthy_opt (validateTextOnly value fieldName)
   then shown (validateTextOnly value fieldName) else rest)
  = if d && negb (forallb SignUp.text_char value)
    then Some (SignUp.pattern_message fieldName) else rest.
Proof.
  rewrite lesson_validateTextOnly_value.
  destruct (forallb SignUp.text_char value); cbn [truthy_opt negb].
  - rewrite andb_false_r. reflexivity.
  - cbn [shown].
    rewrite (SignUpBehaviour.pattern_message_truthy fieldName).
    reflexivity.
Qed.

Lemma lesson_message_at (fd : LessonFormData) (k : string) :
  message_at (validateForm fd).1 k
  = if bool_decide ("category" = k) && negb (truthy (trim (category fd)))
    then Some (js "Category is required")
    else if bool_decide ("objectives" = k)
            && negb (existsb non_whitespace (objectives fd))
    then Some (js "At least one learning objective is required")
    else if bool_decide ("duration" = k)
            && ((duration fd <? 15) || (duration fd >? 180))
    then Some (js "Duration must be between 15 and 180 minutes")
    else if bool_decide ("description" = k)
            && negb (truthy (trim (description fd)))
    then Some (js "Description is required")
    else if bool_decide ("description" = k)
            && (length (description fd) <? 20)%nat
    then Some (js "Description must be at least 20 characters long")
    else if bool_decide ("subject" = k)
            && negb (truthy (trim (subject fd)))
    then Some (js "Subject is required")
    else if bool_decide ("title" = k) && negb (truthy (trim (title fd)))
    then Some (js "Lesson title is required")
    else if bool_decide ("title" = k)
            && negb (forallb SignUp.text_char (title fd))
    then Some (SignUp.pattern_message (js "Title"))
    else None.
Proof.
  unfold validateForm.
  destruct fd as [t sj d du ob di ca pr ma].
  cbn [fst snd title subject description duration objectives category].
  cbv zeta.
  rewrite Array_filter_value, filter_none.
  rewrite (existsb_ext' _ _ ob non_whitespace_trim).
  peel_messages. rewrite lesson_guarded_validateTextOnly. shown_messages.
  reflexivity.
Qed.

(** X8: the message the lesson's [validateForm] leaves at each key, with
    the priorities of the source: a blank title is reported as required
    before its pattern is looked at, a blank description before its
    length; subject, duration, objectives and category have one message
    each; no other key -- difficulty, prerequisites, materials -- ever
    holds a message. *)
Theorem lesson_messages (fd : LessonFormData) :
  message_at (validateForm fd).1 "title"
    = (if negb (truthy (trim (title fd)))
       then Some (js "Lesson title is required")
       else if forallb SignUp.text_char (title fd) then None
       else Some (SignUp.pattern_message (js "Title"))) /\
  message_at (validateForm fd).1 "subject"
    = (if negb (truthy (trim (subject fd)))
       then Some (js "Subject is required") else None) /\
  message_at (validateForm fd).1 "description"
    = (if negb (truthy (trim (description fd)))
       then Some (js "Description is required")
       else if (length (description fd) <? 20)%nat
       then Some (js "Description must be at least 20 characters long")
       else None) /\
  message_at (validateForm fd).1 "duration"
    = (if (15 <=? duration fd) && (duration fd <=? 180) then None
       else Some (js "Duration must be between 15 and 180 minutes")) /\
  message_at (validateForm fd).1 "objectives"
    = (if existsb non_whitespace (objectives fd) then None
       else Some (js "At least one learning objective is required")) /\
  message_at (validateForm fd).1 "category"
    = (if negb (truthy (trim (category fd)))
       then Some (js "Category is required") else None) /\
  (forall k,
     k ∉ ["title"; "subject"; "description"; "duration"; "objectives";
          "category"] ->
     message_at (validateForm fd).1 k = None).
Proof.
  repeat split;
    [..|intros k Hk;
        repeat (apply not_elem_of_cons in Hk as [? Hk]);
        rewrite lesson_message_at;
        repeat match goal with
               | |- context [bool_decide (?a = k)] =>
                   rewrite (bool_decide_eq_false_2 (a = k)) by done
               end;
        reflexivity].
  all: rewrite lesson_message_at; decide_keys; cbn [andb];
    rewrite ?Z.gtb_ltb, ?Z.ltb_antisym;
    try (destruct (15 <=? duration fd), (duration fd <=? 180);
         reflexivity);
    by_conditions.
Qed.

Lemma lesson_handleChange_formData (snapshot prev : State) (n : FieldName)
    (value : jsstring) :
  formData (handleChange snapshot n value prev)
  = set_field n value (formData prev).
Proof.
  unfold handleChange.
  destruct (has_error (errors snapshot) (FieldName_string n));
    destruct n; try reflexivity;
    destruct (truthy_opt (validateTextOnly value _)); reflexivity.
Qed.


(** *** The two lists *)

Lemma filter_from_delete {A} index i (a : list A) :
  filter_from (fun _ j => negb (j =? i + index)%nat) i a = delete index a.
Proof.
  revert index i. induction a as [|x a IH]; intros index i;
    [destruct index; reflexivity|].
  cbn [filter_from]. destruct index as [|index].
  - rewrite Nat.add_0_r, Nat.eqb_refl. cbn [negb].
    rewrite filter_from_past by lia. reflexivity.
  - destruct (Nat.eqb_spec i (i + S index)) as [?|_]; [lia|]. cbn [negb].
    replace (i + S index)%nat with (S i + index)%nat by lia.
    rewrite IH. reflexivity.
Qed.

Lemma Array_filter_delete {A} index (a : list A) :
  Array_filter (fun _ j => negb (j =? index)%nat) a = delete index a.
Proof. exact (filter_from_delete index 0 a). Qed.

Lemma with_objectives_same (s : State) :
  update_formData (with_objectives (objectives (formData s))) s = s.
Proof. destruct s as [[] ? ? ?]. reflexivity. Qed.

Lemma with_materials_same (s : State) :
  update_formData (with_materials (materials (formData s))) s = s.
Proof. destruct s as [[] ? ? ?]. reflexivity. Qed.

Lemma delete_past {A} index (a : list A) :
  (length a <= index)%nat -> delete index a = a.
Proof.
  revert index. induction a as [|x a IH]; intros [|index] Hl;
    simpl in *; try reflexivity; [lia|].
  f_equal. apply IH. lia.
Qed.

Lemma delete_last {A} (a : list A) x : delete (length a) (a ++ [x]) = a.
Proof.
  induction a as [|y a IH]; [reflexivity|].
  cbn [length app]. change (delete (S (length a)) (y :: (a ++ [x])))
    with (y :: delete (length a) (a ++ [x])).
  rewrite IH. reflexivity.
Qed.

(** X10: removing entry [index] sets the list to the rendered list
    without its element at [index] -- the list of the render, not the
    current one -- when the rendered list has more than one entry, and
    does nothing otherwise; the other list and the messages are
    untouched.  For an entry of a rendered list of more than one entry,
    the new list is one shorter: the entries before [index] stay in
    place and the ones after it move up by one. *)
Theorem remove_entry (snapshot prev : State) (index : nat) :
  objectives (formData (removeObjective snapshot index prev))
    = (if (1 <? length (objectives (formData snapshot)))%nat
       then delete index (objectives (formData snapshot))
       else objectives (formData prev)) /\
  materials (formData (removeMaterial snapshot index prev))
    = (if (1 <? length (materials (formData snapshot)))%nat
       then delete index (materials (formData snapshot))
       else materials (formData prev)) /\
  materials (formData (removeObjective snapshot index prev))
    = materials (formData prev) /\
  objectives (formData (removeMaterial snapshot index prev))
    = objectives (formData prev) /\
  errors (removeObjective snapshot index prev) = errors prev /\
  errors (removeMaterial snapshot index prev) = errors prev /\
  ((1 < length (objectives (formData snapshot)))%nat ->
   (index < length (objectives (formData snapshot)))%nat ->
   S (length (objectives (formData (removeObjective snapshot index prev))))
     = length (objectives (formData snapshot)) /\
   forall i,
     objectives (formData (removeObjective snapshot index prev)) !! i
     = objectives (formData snapshot)
         !! (if (i <? index)%nat then i else S i)) /\
  ((1 < length (materials (formData snapshot)))%nat ->
   (index < length (materials (formData snapshot)))%nat ->
   S (length (materials (formData (removeMaterial snapshot index prev))))
     = length (materials (formData snapshot)) /\
   forall i,
     materials (formData (removeMaterial snapshot index prev)) !! i
     = materials (formData snapshot)
         !! (if (i <? index)%nat then i else S i)).
Proof.
  assert (Hdel : forall (l : list jsstring),
            (index < length l)%nat ->
            S (length (delete index l)) = length l /\
            forall i, delete index l !! i
                      = l !! (if (i <? index)%nat then i else S i)).
  { intros l Hi. split.
    - rewrite length_delete by (apply lookup_lt_is_Some; exact Hi). lia.
    - intros i. destruct (Nat.ltb_spec i index).
      + apply list_lookup_delete_lt. assumption.
      + apply list_lookup_delete_ge. assumption. }
  unfold removeObjective, removeMaterial.
  repeat match goal with |- _ /\ _ => split end.
  1-6: destruct (1 <? length _)%nat; cbv zeta;
       rewrite ?Array_filter_delete; reflexivity.
  - intros Hl%Nat.ltb_lt Hi. rewrite Hl. cbv zeta.
    cbn [formData update_formData with_objectives objectives].
    rewrite Array_filter_delete. apply Hdel, Hi.
  - intros Hl%Nat.ltb_lt Hi. rewrite Hl. cbv zeta.
    cbn [formData update_formData with_materials materials].
    rewrite Array_filter_delete. apply Hdel, Hi.
Qed.

Lemma remove_entry_witness :
  objectives (formData (removeObjective Samples.draft 1 Samples.draft))
    = [js "Name three rivers"; js "Map a lake"] /\
  materials (formData (removeMaterial Samples.draft 0 Samples.draft))
    = [js "Pencils"] /\
  objectives (formData (removeObjective Samples.draft 1 Samples.draft))
    !! 1%nat
    = Some (js "Map a lake").
Proof.
  destruct (remove_entry Samples.draft Samples.draft 1)
    as (Ho & _ & _ & _ & _ & _ & Hi & _).
  destruct (remove_entry Samples.draft Samples.draft 0)
    as (_ & Hm & _).
  split; [exact Ho|]. split; [exact Hm|].
  destruct Hi as [_ Hi]; [simpl; lia|simpl; lia|].
  rewrite (Hi 1%nat). reflexivity.
Defined.

(** X11: adding an entry and, after the re-render, removing the last
    entry gives back the state before, for the objectives and for the
    materials. *)
Theorem add_then_remove_last (s : State) :
  objectives (formData s) <> [] -> materials (formData s) <> [] ->
  removeObjective (addObjective s) (length (objectives (formData s)))
    (addObjective s) = s /\
  removeMaterial (addMaterial s) (length (materials (formData s)))
    (addMaterial s) = s.
Proof.
  intros Ho Hm. unfold removeObjective, removeMaterial.
  destruct s as [[t sj d du ob di ca pr ma] e sub suc].
  cbn [addObjective addMaterial update_formData formData objectives
       materials with_objectives with_materials] in *.
  rewrite !length_app. cbn [length].
  destruct ob as [|o ob]; [congruence|].
  destruct ma as [|m ma]; [congruence|].
  replace (1 <? length (o :: ob) + 1)%nat with true
    by (symmetry; apply Nat.ltb_lt; simpl; lia).
  replace (1 <? length (m :: ma) + 1)%nat with true
    by (symmetry; apply Nat.ltb_lt; simpl; lia).
  cbv zeta. rewrite !Array_filter_delete, !delete_last.
  split; reflexivity.
Qed.

Lemma add_then_remove_last_witness :
  removeObjective (addObjective initialState) 1 (addObjective initialState)
  = initialState.
Proof.
  destruct (add_then_remove_last initialState) as [H _].
  - discriminate.
  - discriminate.
  - exact H.
Defined.

Lemma existsb_insert (p : jsstring -> bool) (l : list jsstring) i v :
  (i < length l)%nat -> p v = true -> existsb p (<[i := v]> l) = true.
Proof.
  intros Hi Hv. apply existsb_exists. exists v. split; [|exact Hv].
  apply list_elem_of_In, (list_elem_of_lookup_2 _ i).
  apply list_lookup_insert_eq. exact Hi.
Qed.

(** X12: typing into objective [index] of the rendered list replaces
    that entry of the rendered list and nothing else of the form; the
    objectives message is removed when the rendered state showed one and
    no other message changes.  Once the typed value has a character that
    is not white space, the objectives check holds and [validateForm]
    reports no objectives message. *)
Theorem objective_typed (snapshot prev : State) (index : nat)
    (value : jsstring) :
  (index < length (objectives (formData snapshot)))%nat ->
  exists next,
    handleObjectiveChange snapshot index value prev = Some next /\
    objectives (formData next)
      = <[index := value]> (objectives (formData snapshot)) /\
    objectives (formData next) !! index = Some value /\
    formData next
      = with_objectives (objectives (formData next)) (formData prev) /\
    message_at (errors next) "objectives"
      = (if has_error (errors snapshot) "objectives" then None
         else message_at (errors prev) "objectives") /\
    (forall k, k <> "objectives" -> errors next !! k = errors prev !! k) /\
    (non_whitespace value = true ->
     objectives_check (formData next) = true /\
     message_at (validateForm (formData next)).1 "objectives" = None).
Proof.
  intros Hi. unfold handleObjectiveChange.
  rewrite (Array_assign_inside _ index value Hi). cbn [mbind option_bind].
  eexists. split; [reflexivity|].
  assert (Ho : forall s : State,
    objectives (formData
      (if has_error (errors snapshot) "objectives"
       then update_errors (fun e => <["objectives" := None]> e) s
       else s)) = objectives (formData s))
    by (intros s; destruct (has_error _ _); reflexivity).
  assert (Hf : forall s : State,
    formData
      (if has_error (errors snapshot) "objectives"
       then update_errors (fun e => <["objectives" := None]> e) s
       else s) = formData s)
    by (intros s; destruct (has_error _ _); reflexivity).
  rewrite Ho, Hf. cbn [update_formData formData with_objectives objectives].
  split; [reflexivity|].
  split; [apply list_lookup_insert_eq; exact Hi|].
  split; [reflexivity|].
  split; [|split].
  - destruct (has_error (errors snapshot) "objectives");
      cbn [errors update_errors]; [apply message_at_undefined|reflexivity].
  - intros k Hk. destruct (has_error (errors snapshot) "objectives");
      cbn [errors update_errors]; [|reflexivity].
    apply lookup_insert_ne. congruence.
  - intros Hv.
    assert (Hc : existsb non_whitespace
                   (<[index := value]> (objectives (formData snapshot)))
                 = true) by (apply existsb_insert; assumption).
    split; [exact Hc|].
    rewrite lesson_message_at. decide_keys.
    cbn [andb objectives with_objectives].
    rewrite Hc. reflexivity.
Qed.

Lemma objective_typed_witness :
  exists next,
    handleObjectiveChange initialState 0 (js "Name three rivers")
      initialState = Some next /\
    objectives_check (formData next) = true.
Proof.
  destruct (objective_typed initialState initialState 0
              (js "Name three rivers"))
    as (next & Hn & _ & _ & _ & _ & _ & Hc).
  - simpl. lia.
  - exists next. split; [exact Hn|]. apply Hc. reflexivity.
Defined.

(** *** What is handed to [onSave] *)

Lemma cleanedData_lists fd :
  objectives (cleanedData fd) = List.filter non_whitespace (objectives fd) /\
  materials (cleanedData fd) = List.filter non_whitespace (materials fd).
Proof.
  unfold cleanedData, with_materials, with_objectives.
  cbn [objectives materials].
  rewrite !Array_filter_value.
  rewrite !(filter_ext (fun x => truthy (trim x)) non_whitespace)
    by (intros; apply non_whitespace_trim).
  split; reflexivity.
Qed.

Lemma filter_filter_same {A} (p : A -> bool) (l : list A) :
  List.filter p (List.filter p l) = List.filter p l.
Proof.
  induction l as [|x l IH]; [reflexivity|].
  cbn [List.filter]. destruct (p x) eqn:Hp; [|exact IH].
  cbn [List.filter]. rewrite Hp, IH. reflexivity.
Qed.

Lemma existsb_filter_same {A} (p : A -> bool) (l : list A) :
  existsb p (List.filter p l) = existsb p l.
Proof.
  induction l as [|x l IH]; [reflexivity|].
  cbn [List.filter existsb]. destruct (p x) eqn:Hp; [|exact IH].
  cbn [existsb]. rewrite Hp. reflexivity.
Qed.

Lemma filter_sublist {A} (p : A -> bool) (l : list A) :
  sublist (List.filter p l) l.
Proof.
  induction l as [|x l IH]; [constructor|].
  cbn [List.filter]. destruct (p x); [apply sublist_skip|apply sublist_cons];
    exact IH.
Qed.

(** X13: what [handleSubmit] hands to [onSave] keeps exactly the
    objectives and materials that are not white space only, untrimmed
    and in their order; cleaning twice changes nothing more; the cleaned
    data passes validation exactly when the form does; and for a valid
    form the saved objectives are not empty (the saved materials may
    be). *)
Theorem cleanedData_saved (fd : LessonFormData) :
  (forall x, In x (objectives (cleanedData fd)) <->
             In x (objectives fd) /\ non_whitespace x = true) /\
  (forall x, In x (materials (cleanedData fd)) <->
             In x (materials fd) /\ non_whitespace x = true) /\
  sublist (objectives (cleanedData fd)) (objectives fd) /\
  sublist (materials (cleanedData fd)) (materials fd) /\
  cleanedData (cleanedData fd) = cleanedData fd /\
  (validateForm (cleanedData fd)).2 = (validateForm fd).2 /\
  ((validateForm fd).2 = true -> objectives (cleanedData fd) <> []).
Proof.
  destruct (cleanedData_lists fd) as [Ho Hm].
  split; [intros x; rewrite Ho; apply filter_In|].
  split; [intros x; rewrite Hm; apply filter_In|].
  split; [rewrite Ho; apply filter_sublist|].
  split; [rewrite Hm; apply filter_sublist|].
  split; [|split].
  - destruct (cleanedData_lists (cleanedData fd)) as [Ho' Hm'].
    rewrite Ho, Hm in *. rewrite filter_filter_same in Ho', Hm'.
    destruct (cleanedData (cleanedData fd)) eqn:E1.
    destruct (cleanedData fd) eqn:E2.
    cbn [objectives materials] in *.
    unfold cleanedData, with_materials, with_objectives in E1.
    cbn [title subject description duration difficulty category
         prerequisites objectives materials] in E1.
    injection E1 as <- <- <- <- _ <- <- <- _.
    subst. reflexivity.
  - rewrite !lesson_validateForm_returns.
    unfold title_check, subject_check, description_check, duration_check,
      objectives_check, category_check.
    rewrite Ho, existsb_filter_same. reflexivity.
  - intros Hv. rewrite lesson_validateForm_returns in Hv.
    rewrite !andb_true_iff in Hv.
    destruct Hv as ((_ & Hc) & _). unfold objectives_check in Hc.
    rewrite Ho. rewrite <- existsb_filter_same in Hc.
    destruct (List.filter non_whitespace (objectives fd));
      [discriminate|discriminate].
Qed.

(** X14: every run of the lesson's [handleSubmit] completes normally,
    whatever the callbacks do.  For a valid form [isSubmitting] is
    [false] and no message is set at the end; the form is reset exactly
    when [onSave] returned, in which case [onClose] is called once; a
    failure of either callback is logged once to the console and shown
    nowhere in the form.  For an invalid form only the messages change:
    no wait, no [onSave], no [onClose], no [isSubmitting]. *)
Theorem lesson_submission_outcome env fd (s : State) :
  (handleSubmit env fd).2 = Normal /\
  if (validateForm fd).2 then
    isSubmitting (run_trace s (handleSubmit env fd).1) = false /\
    errors (run_trace s (handleSubmit env fd).1) = ∅ /\
    formData (run_trace s (handleSubmit env fd).1)
      = (if onSave_throws env (cleanedData fd) then formData s
         else initialFormData) /\
    List.filter is_onClose (handleSubmit env fd).1
      = (if onSave_throws env (cleanedData fd) then [] else [OnClose]) /\
    List.filter is_consoleError (handleSubmit env fd).1
      = (if onSave_throws env (cleanedData fd)
            || onClose_throws env
         then [ConsoleError (js "Error creating lesson:")] else [])
  else
    run_trace s (handleSubmit env fd).1
      = mkState (formData s) (validateForm fd).1
          (isSubmitting s) (isSuccess s) /\
    List.filter is_delay (handleSubmit env fd).1 = [] /\
    List.filter is_onSave (handleSubmit env fd).1 = [] /\
    List.filter is_onClose (handleSubmit env fd).1 = [] /\
    List.filter is_setIsSubmitting (handleSubmit env fd).1 = [].
Proof.
  destruct (validateForm fd).2 eqn:Hv.
  - rewrite (lesson_handleSubmit_valid env fd Hv). unfold valid_trace.
    split; [reflexivity|]. cbn [fst].
    destruct (onSave_throws env (cleanedData fd)), (onClose_throws env);
      repeat split.
  - rewrite (lesson_handleSubmit_invalid env fd Hv).
    repeat split.
Qed.

(** *** The duration field *)

(** X15: [parseInt] reads back the decimal numeral of an integer, so
    typing the numeral of a safe integer [n] into the duration field
    stores [n]; [validateForm] then reports the duration message exactly
    when [n] is outside 15..180.  Emptying the field stores 0. *)
Theorem duration_typed (snapshot prev : State) (n : Z) :
  isSafeInteger n = true ->
  parseInt (Number_toString n) = Some n /\
  duration (formData (handleChange snapshot name_duration
                        (Number_toString n) prev)) = n /\
  message_at
    (validateForm
       (formData (handleChange snapshot name_duration
                    (Number_toString n) prev))).1 "duration"
    = (if (15 <=? n) && (n <=? 180) then None
       else Some (js "Duration must be between 15 and 180 minutes")) /\
  duration (formData (handleChange snapshot name_duration [] prev)) = 0.
Proof.
  intros _.
  pose proof (lesson_handleChange_formData snapshot prev name_duration
                (Number_toString n)) as Hf.
  pose proof (lesson_handleChange_formData snapshot prev name_duration [])
    as Hf0.
  assert (Hd : duration (formData (handleChange snapshot name_duration
                                     (Number_toString n) prev)) = n).
  { rewrite Hf. cbn [set_field duration].
    rewrite parseInt_Number_toString. reflexivity. }
  split; [apply parseInt_Number_toString|].
  split; [exact Hd|]. split.
  - rewrite lesson_message_at. decide_keys. cbn [andb]. rewrite Hd.
    rewrite Z.gtb_ltb, !Z.ltb_antisym.
    destruct (15 <=? n), (n <=? 180); reflexivity.
  - rewrite Hf0. reflexivity.
Qed.

Lemma duration_typed_witness :
  duration (formData (handleChange initialState name_duration (js "45")
                        initialState)) = 45 /\
  message_at
    (validateForm
       (formData (handleChange initialState name_duration (js "200")
                    initialState))).1 "duration"
    = Some (js "Duration must be between 15 and 180 minutes").
Proof.
  split.
  - destruct (duration_typed initialState initialState 45) as (_ & H & _);
      [reflexivity|exact H].
  - destruct (duration_typed initialState initialState 200)
      as (_ & _ & H & _); [reflexivity|exact H].
Defined.



Lemma lesson_messages_witness :
  message_at (validateForm Samples.lesson).1 "materials" = None.
Proof.
  destruct (lesson_messages Samples.lesson) as (_ & _ & _ & _ & _ & _ & H).
  apply H. vm_compute. intros Hin.
  repeat (apply elem_of_cons in Hin as [Hin|Hin]; [discriminate|]).
  inversion Hin.
Defined.

Lemma cleanedData_saved_witness :
  objectives (cleanedData Samples.lesson) <> [].
Proof.
  destruct (cleanedData_saved Samples.lesson) as (_ & _ & _ & _ & _ & _ & H).
  apply H. vm_compute. reflexivity.
Defined.

(** X19: the materials, the prerequisites and the difficulty are
    optional: changing, adding or removing a material, or changing the
    prerequisites or the difficulty, never changes what [validateForm]
    answers; a change of a material touches neither the messages nor the
    objectives and replaces the entry of the rendered list. *)
Theorem materials_optional (snapshot prev : State) (index : nat)
    (value : jsstring) :
  (forall next,
     handleMaterialChange snapshot index value prev = Some next ->
     validateForm (formData next) = validateForm (formData prev) /\
     errors next = errors prev /\
     objectives (formData next) = objectives (formData prev)) /\
  ((index < length (materials (formData snapshot)))%nat ->
   exists next,
     handleMaterialChange snapshot index value prev = Some next /\
     materials (formData next)
       = <[index := value]> (materials (formData snapshot))) /\
  validateForm (formData (addMaterial prev)) = validateForm (formData prev) /\
  validateForm (formData (removeMaterial snapshot index prev))
    = validateForm (formData prev) /\
  validateForm (formData (handleChange snapshot name_prerequisites value prev))
    = validateForm (formData prev) /\
  validateForm (formData (handleChange snapshot name_difficulty value prev))
    = validateForm (formData prev).
Proof.
  assert (Hm : forall l fd, validateForm (with_materials l fd)
                            = validateForm fd) by reflexivity.
  split; [|split; [|split; [|split; [|split]]]].
  - intros next. unfold handleMaterialChange.
    destruct (Array_assign _ index value) as [l|]; [|discriminate].
    cbn [mbind option_bind]. intros [= <-].
    cbn [formData update_formData errors]. rewrite Hm.
    repeat split.
  - intros Hi. unfold handleMaterialChange.
    rewrite (Array_assign_inside _ index value Hi).
    cbn [mbind option_bind]. eexists. split; reflexivity.
  - unfold addMaterial. cbn [formData update_formData]. apply Hm.
  - unfold removeMaterial. destruct (1 <? length _)%nat; [|reflexivity].
    cbv zeta. cbn [formData update_formData]. apply Hm.
  - rewrite (lesson_handleChange_formData snapshot prev
               name_prerequisites value).
    reflexivity.
  - rewrite (lesson_handleChange_formData snapshot prev
               name_difficulty value).
    reflexivity.
Qed.

Lemma materials_optional_witness :
  exists next,
    handleMaterialChange initialState 0 (js "Map") initialState = Some next /\
    materials (formData next) = [js "Map"] /\
    validateForm (formData next) = validateForm initialFormData.
Proof.
  destruct (materials_optional initialState initialState 0 (js "Map"))
    as (Hv & Hm & _).
  destruct Hm as (next & Hn & Hl); [simpl; lia|].
  exists next. split; [exact Hn|]. split; [exact Hl|].
  apply (Hv next Hn).
Defined.

End CreateLessonModalBehaviour.

(* ===================================================================== *)
(** ** More of the student detail modal                                  *)
(* ===================================================================== *)

Module StudentDetailModalBehaviour.
Import Js JsFacts NumberFacts StudentDetailModal.

Lemma displayed_cards (locale : Locale) (student : Student) :
  displayed locale student (js "Current Level")
    = [Number_toString (currentLevel student)] /\
  displayed locale student (js "Challenges Completed")
    = [Number_toString (completedChallenges student)] /\
  displayed locale student (js "Current Streak")
    = [Number_toString (streak student) ++ js " days"].
Proof.
  unfold displayed, performanceData.
  repeat split;
    repeat first
      [ rewrite filter_cons_True by reflexivity
      | rewrite filter_cons_False by (cbn [label]; vm_compute; discriminate) ];
    reflexivity.
Qed.

(** X16: for a record whose points and stored level are safe integers,
    the 'Current Level' card shows the decimal numeral of the level, which
    [parseInt] reads back: the stored level when the record has a
    non-zero one, whatever the points; otherwise the level computed from
    the eco points, one level per 200 points starting at level 1, so that
    the points lie in the 200-point band of the level shown and a student
    with non-negative points is at level 1 at least. *)
Theorem current_level (locale : Locale) (student : Student) :
  isSafeInteger (ecoPoints student) = true ->
  (forall l, level student = Some l -> isSafeInteger l = true) ->
  displayed locale student (js "Current Level")
    = [Number_toString (currentLevel student)] /\
  parseInt <$> displayed locale student (js "Current Level")
    = [Some (currentLevel student)] /\
  isSafeInteger (currentLevel student) = true /\
  (forall l, level student = Some l -> l <> 0 -> currentLevel student = l) /\
  (level student = None \/ level student = Some 0 ->
   200 * (currentLevel student - 1) <= ecoPoints student
     < 200 * currentLevel student) /\
  (level student = None \/ level student = Some 0 ->
   0 <= ecoPoints student -> 1 <= currentLevel student).
Proof.
  intros Hp Hl.
  destruct (displayed_cards locale student) as (Hd & _).
  split; [exact Hd|].
  split; [rewrite Hd; cbn [fmap list_fmap];
          rewrite parseInt_Number_toString; reflexivity|].
  assert (Hband : level student = None \/ level student = Some 0 ->
                  200 * (currentLevel student - 1) <= ecoPoints student
                    < 200 * currentLevel student).
  { unfold currentLevel. intros [->| ->]; cbn [Z.eqb];
      pose proof (Z.div_mod (ecoPoints student) 200 ltac:(lia));
      pose proof (Z.mod_pos_bound (ecoPoints student) 200 ltac:(lia)); lia. }
  split; [|split; [|split; [exact Hband|]]].
  - unfold isSafeInteger, MAX_SAFE_INTEGER in *.
    destruct (level student) as [l|] eqn:El.
    + destruct (Z.eqb_spec l 0) as [->|Hne].
      * specialize (Hband (or_intror eq_refl)).
        apply andb_true_iff in Hp as [?%Z.leb_le ?%Z.leb_le].
        apply andb_true_iff. split; apply Z.leb_le; lia.
      * unfold currentLevel. rewrite El.
        destruct (Z.eqb_spec l 0); [contradiction|]. apply (Hl l eq_refl).
    + specialize (Hband (or_introl eq_refl)).
      apply andb_true_iff in Hp as [?%Z.leb_le ?%Z.leb_le].
      apply andb_true_iff. split; apply Z.leb_le; lia.
  - unfold currentLevel. intros l -> Hne.
    destruct (Z.eqb_spec l 0); [contradiction|reflexivity].
  - unfold currentLevel. intros [->| ->] Hn; cbn [Z.eqb];
      pose proof (Z.div_pos (ecoPoints student) 200 Hn ltac:(lia)); lia.
Qed.

(** X17: the days active are the whole days between the join date and
    now, rounded down -- a join date in the future gives a negative
    count.  A join date that does not parse gives [NaN]; a record with
    no join date, or an empty one, counts from the render itself and
    shows 0. *)
Theorem days_since_joined (clock : Clock) (student : Student) :
  (forall s t,
     joinDate student = Some s -> s <> [] -> Date_parse clock s = Some t ->
     exists d,
       daysSinceJoined clock student = Some d /\
       86400000 * d <= Date_now clock - t < 86400000 * (d + 1)) /\
  (forall s,
     joinDate student = Some s -> s <> [] -> Date_parse clock s = None ->
     daysSinceJoined clock student = None) /\
  (joinDate student = None \/ joinDate student = Some [] ->
   0 <= Date_now clock - new_Date clock < 86400000 ->
   daysSinceJoined clock student = Some 0).
Proof.
  unfold daysSinceJoined. split; [|split].
  - intros s t -> Hs Ht. destruct s; [congruence|]. cbn [truthy].
    rewrite Ht. cbn [fmap option_fmap option_map]. eexists.
    split; [reflexivity|].
    change (1000 * 60 * 60 * 24) with 86400000.
    pose proof (Z.div_mod (Date_now clock - t) 86400000 ltac:(lia)).
    pose proof (Z.mod_pos_bound (Date_now clock - t) 86400000 ltac:(lia)).
    lia.
  - intros s -> Hs Ht. destruct s; [congruence|]. cbn [truthy].
    rewrite Ht. reflexivity.
  - intros [->| ->] Hc; cbn [truthy fmap option_fmap option_map];
      f_equal; change (1000 * 60 * 60 * 24) with 86400000;
      apply Z.div_small; exact Hc.
Qed.

(** X18: whatever [Math.random] returns, each of the four academic
    progress rows shows between 1 and [total] completed lessons and a
    percentage between 40 and 99 -- never 100 --, for the four fixed
    categories in their order; the rows depend on nothing but the random
    source. *)
Theorem academic_progress_bounds (floor_random : nat -> Z -> Z) :
  (forall i n, 0 < n -> 0 <= floor_random i n < n) ->
  Forall (fun p => 1 <= completed p <= total p /\
                   40 <= percentage p <= 99)
    (academicProgress floor_random) /\
  progress_category <$> academicProgress floor_random
    = [js "Climate Change"; js "Waste Management";
       js "Water Conservation"; js "Renewable Energy"].
Proof.
  intros Hr. split; [|reflexivity].
  unfold academicProgress.
  pose proof (Hr 0%nat 8 ltac:(lia)). pose proof (Hr 1%nat 40 ltac:(lia)).
  pose proof (Hr 2%nat 6 ltac:(lia)). pose proof (Hr 3%nat 30 ltac:(lia)).
  pose proof (Hr 4%nat 5 ltac:(lia)). pose proof (Hr 5%nat 35 ltac:(lia)).
  pose proof (Hr 6%nat 4 ltac:(lia)). pose proof (Hr 7%nat 40 ltac:(lia)).
  repeat constructor; cbn [completed total percentage]; lia.
Qed.

Lemma academic_progress_bounds_witness :
  Forall (fun p => 1 <= completed p <= total p /\
                   40 <= percentage p <= 99)
    (academicProgress (fun i n => (Z.of_nat i * 7) mod n)).
Proof.
  apply (academic_progress_bounds (fun i n => (Z.of_nat i * 7) mod n)).
  intros i n Hn. apply Z.mod_pos_bound. exact Hn.
Defined.

Lemma current_level_witness :
  displayed Samples.en_US Samples.meera (js "Current Level") = [js "7"] /\
  200 * (7 - 1) <= 1250 < 200 * 7.
Proof.
  destruct (current_level Samples.en_US Samples.meera)
    as (Hd & _ & _ & _ & H & _).
  - reflexivity.
  - discriminate.
  - split; [exact Hd|]. apply H. left. reflexivity.
Defined.

Lemma days_since_joined_witness :
  exists d,
    daysSinceJoined Samples.render_clock Samples.meera = Some d /\
    86400000 * d <= 1706745600001 - 1705276800000 < 86400000 * (d + 1).
Proof.
  destruct (days_since_joined Samples.render_clock Samples.meera) as (H & _).
  apply (H (js "2024-01-15") 1705276800000).
  - reflexivity.
  - discriminate.
  - reflexivity.
Defined.

End StudentDetailModalBehaviour.
